(** * AI-CV-Evaluation-System: the evaluation task pipeline

    A shallow embedding of the Python sources
      app/services/gemini_service.py      (AI gateway)
      app/services/vector_db.py           (context store)
      app/services/evaluation_pipeline.py (orchestrator and task lifecycle)
      app/api/routes.py                   (submission and deletion routes)
      app/utils/document_processor.py     (format dispatch)
    together with the properties stated for them.

    Python values are modelled as follows.  A [str] is the list of its code
    points.  A dynamically typed value (what [json.loads] returns, what a dict
    holds) is a [pyval].  An exception is a value of [exn]; a call that may
    raise returns [outcome A].  Calls to the generation service thread an
    attempt counter through the state-and-error monad [M]. *)

From Stdlib Require Import ZArith QArith Ascii String List Lia.
From stdpp Require Import base option list strings gmap sorting.

Set Warnings "-register-all,-clear-no-such-hyp".
Local Open Scope N_scope.

(** ** Python strings *)

Module Py.

Definition str := list N.

(** [u "text"] is the [str] of an ASCII literal of the source. *)
Definition u (s : string) : str := map N_of_ascii (list_ascii_of_string s).

(** [js "text"] is a literal in which each apostrophe stands for a double
    quote; the JSON texts of the examples are written with it. *)
Definition js (s : string) : str := map (fun c => if c =? 39 then 34 else c) (u s).

Definition between (lo hi c : N) : bool := (lo <=? c) && (c <=? hi).

(** [str.isspace] on one character: the Unicode characters Python treats as
    whitespace for [strip()] and [split()]. *)
Definition isspace (c : N) : bool :=
  between 9 13 c || between 28 32 c || (c =? 133) || (c =? 160)
  || (c =? 5760) || between 8192 8202 c || (c =? 8232) || (c =? 8233)
  || (c =? 8239) || (c =? 8287) || (c =? 12288).

(** The same characters, listed. *)
Definition space_chars : list N :=
  [9; 10; 11; 12; 13; 28; 29; 30; 31; 32; 133; 160; 5760;
   8192; 8193; 8194; 8195; 8196; 8197; 8198; 8199; 8200; 8201; 8202;
   8232; 8233; 8239; 8287; 12288].

Fixpoint lstrip (s : str) : str :=
  match s with
  | c :: s' => if isspace c then lstrip s' else s
  | [] => []
  end.

Fixpoint rstrip (s : str) : str :=
  match s with
  | [] => []
  | c :: s' =>
      match rstrip s' with
      | [] => if isspace c then [] else [c]
      | r => c :: r
      end
  end.

(** [s.strip()] *)
Definition strip (s : str) : str := rstrip (lstrip s).

(** [s.startswith(p)] *)
Definition startswith (s p : str) : bool :=
  bool_decide (take (length p) s = p).

(** [s[a:-b]] for literal non-negative [a] and [b]. *)
Definition slice_to_end (a b : nat) (s : str) : str :=
  drop a (take (length s - b) s).

(** [s.split()]: the maximal runs of non-whitespace characters. *)
Fixpoint split_from (cur : str) (s : str) : list str :=
  match s with
  | [] => match cur with [] => [] | _ => [cur] end
  | c :: s' =>
      if isspace c
      then match cur with [] => split_from [] s' | _ => cur :: split_from [] s' end
      else split_from (cur ++ [c]) s'
  end.

Definition split (s : str) : list str := split_from [] s.

(** [w in s] for strings: [w] occurs as a contiguous substring of [s]. *)
Fixpoint contains (s w : str) : bool :=
  startswith s w || match s with [] => false | _ :: s' => contains s' w end.

(** [sep.join(l)] *)
Fixpoint join (sep : str) (l : list str) : str :=
  match l with
  | [] => []
  | [x] => x
  | x :: l' => x ++ sep ++ join sep l'
  end.

(** [str.lower()] restricted to text whose cased characters are ASCII or
    Latin-1; used where a concrete corpus is evaluated.  The retrieval
    functions below take the lowering function as an argument, so that their
    theorems hold for Python's full Unicode tables as well. *)
Definition lower_char (c : N) : N :=
  if between 65 90 c || (between 192 222 c && negb (c =? 215)) then c + 32 else c.

Definition lower_latin (s : str) : str := map lower_char s.

End Py.

Import Py.

(** ** Python values, floats and exceptions *)

Inductive pyfloat :=
| Fin (q : Q)
| Inf (negative : bool)
| NaN.

Inductive pyval :=
| PyNone
| PyBool (b : bool)
| PyInt (n : Z)
| PyFloat (f : pyfloat)
| PyStr (s : str)
| PyList (l : list pyval)
| PyDict (d : list (str * pyval)).

(** A dict keeps insertion order; assigning to a present key keeps its place. *)
Fixpoint dict_set (k : str) (v : pyval) (d : list (str * pyval)) : list (str * pyval) :=
  match d with
  | [] => [(k, v)]
  | (k', v') :: d' => if decide (k' = k) then (k, v) :: d' else (k', v') :: dict_set k v d'
  end.

Fixpoint dict_get (k : str) (d : list (str * pyval)) : option pyval :=
  match d with
  | [] => None
  | (k', v) :: d' => if decide (k' = k) then Some v else dict_get k d'
  end.

(** The exception classes the sources raise, catch or let through.  [msg] is
    the text [str(e)] gives. *)
Inductive exn :=
| Exception (msg : str)
| ValueError (msg : str)
| TypeError (msg : str)
| KeyError (key : str)
| AttributeError (msg : str)
| JSONDecodeError (msg : str)
| ValidationError (msg : str)
| HTTPException (status : Z) (detail : str)
| OSError (msg : str)
| OverflowError (msg : str)
| RetryError (last : exn).

(** [str(e)].  For [RetryError] the real text embeds the repr of the wrapped
    future; only the fact that it is a string matters below. *)
Fixpoint str_exn (e : exn) : str :=
  match e with
  | Exception m | ValueError m | TypeError m | AttributeError m
  | JSONDecodeError m | ValidationError m | OSError m | OverflowError m => m
  | KeyError k => u "'" ++ k ++ u "'"
  | HTTPException _ d => d
  | RetryError l => u "RetryError[" ++ str_exn l ++ u "]"
  end.

Inductive outcome (A : Type) :=
| Ok (a : A)
| Raise (e : exn).
Arguments Ok {A} a.
Arguments Raise {A} e.

Definition rbind {A B} (r : outcome A) (k : A -> outcome B) : outcome B :=
  match r with Ok a => k a | Raise e => Raise e end.

(** ** json.loads

    The decoder of Python's standard library, as a lexer (a character-by-
    character state machine) followed by a recursive-descent parser on the
    tokens.  Numbers without fraction or exponent become [PyInt], the others
    [PyFloat]; the value of a float literal is kept as the exact rational it
    denotes (its rounding to a binary double is not modelled).  Python's
    extensions [NaN], [Infinity] and [-Infinity] are accepted, control
    characters inside strings are rejected, a repeated key keeps its last
    value.  Interpreter resource limits (recursion depth, digit count) are not
    modelled. *)

Module Json.

Inductive token :=
| TLBrace | TRBrace | TLBrack | TRBrack | TColon | TComma
| TStr (s : str)
| TAtom (a : str).

Inductive lstate :=
| LDefault
| LAtom (acc : str)
| LStr (acc : str) (hi : bool)
| LEsc (acc : str) (hi : bool)
| LHex (acc : str) (hi : bool) (ds : list N).

Definition is_ws (c : N) : bool :=
  (c =? 32) || (c =? 9) || (c =? 10) || (c =? 13).

Definition is_digit (c : N) : bool := between 48 57 c.

Definition is_atom_char (c : N) : bool :=
  is_digit c || between 65 90 c || between 97 122 c
  || (c =? 43) || (c =? 45) || (c =? 46).

Definition structural (c : N) : option token :=
  if c =? 123 then Some TLBrace else
  if c =? 125 then Some TRBrace else
  if c =? 91 then Some TLBrack else
  if c =? 93 then Some TRBrack else
  if c =? 58 then Some TColon else
  if c =? 44 then Some TComma else None.

Definition hex_val (c : N) : option N :=
  if is_digit c then Some (c - 48) else
  if between 97 102 c then Some (c - 87) else
  if between 65 70 c then Some (c - 55) else None.

Definition simple_escape (c : N) : option N :=
  if c =? 34 then Some 34 else
  if c =? 92 then Some 92 else
  if c =? 47 then Some 47 else
  if c =? 98 then Some 8 else
  if c =? 102 then Some 12 else
  if c =? 110 then Some 10 else
  if c =? 114 then Some 13 else
  if c =? 116 then Some 9 else None.

Definition is_high (c : N) : bool := between 55296 56319 c.
Definition is_low (c : N) : bool := between 56320 57343 c.

Definition hex4 (ds : list N) : N := fold_left (fun a d => 16 * a + d) ds 0.

(** The character that ends a [\uXXXX] escape: a low surrogate directly
    after an escaped high surrogate is merged with it. *)
Definition push_escape (acc : str) (hi : bool) (uni : N) : lstate :=
  match hi, is_low uni, last acc with
  | true, true, Some h =>
      LStr (removelast acc ++ [65536 + (h - 55296) * 1024 + (uni - 56320)]) false
  | _, _, _ => LStr (acc ++ [uni]) (is_high uni)
  end.

Definition step (st : lstate) (c : N) : option (lstate * list token) :=
  match st with
  | LDefault =>
      if is_ws c then Some (LDefault, []) else
      match structural c with
      | Some t => Some (LDefault, [t])
      | None =>
          if c =? 34 then Some (LStr [] false, []) else
          if is_atom_char c then Some (LAtom [c], []) else None
      end
  | LAtom acc =>
      if is_atom_char c then Some (LAtom (acc ++ [c]), []) else
      if is_ws c then Some (LDefault, [TAtom acc]) else
      match structural c with
      | Some t => Some (LDefault, [TAtom acc; t])
      | None => if c =? 34 then Some (LStr [] false, [TAtom acc]) else None
      end
  | LStr acc hi =>
      if c =? 34 then Some (LDefault, [TStr acc]) else
      if c =? 92 then Some (LEsc acc hi, []) else
      if c <? 32 then None else Some (LStr (acc ++ [c]) false, [])
  | LEsc acc hi =>
      if c =? 117 then Some (LHex acc hi [], []) else
      match simple_escape c with
      | Some d => Some (LStr (acc ++ [d]) false, [])
      | None => None
      end
  | LHex acc hi ds =>
      match hex_val c with
      | Some d =>
          let ds' := ds ++ [d] in
          if (length ds' =? 4)%nat then Some (push_escape acc hi (hex4 ds'), [])
          else Some (LHex acc hi ds', [])
      | None => None
      end
  end.

Definition finish (st : lstate) : option (list token) :=
  match st with
  | LDefault => Some []
  | LAtom acc => Some [TAtom acc]
  | _ => None
  end.

Fixpoint lex_go (st : lstate) (s : str) : option (list token) :=
  match s with
  | [] => finish st
  | c :: s' =>
      match step st c with
      | Some (st', out) =>
          match lex_go st' s' with
          | Some ts => Some (out ++ ts)
          | None => None
          end
      | None => None
      end
  end.

Definition lex (s : str) : option (list token) := lex_go LDefault s.

(** *** Number literals: an optional minus sign, an integer part without
    leading zero, an optional fraction, an optional exponent. *)

Fixpoint digits (s : str) (acc : Z) (n : nat) : Z * nat * str :=
  match s with
  | c :: s' => if is_digit c then digits s' (10 * acc + Z.of_N (c - 48))%Z (S n) else (acc, n, s)
  | [] => (acc, n, s)
  end.

Definition pow10 (e : Z) : Q :=
  if (0 <=? e)%Z then inject_Z (10 ^ e) else (1 # Z.to_pos (10 ^ (- e))).

Definition signed (neg : bool) (z : Z) : Z := if neg then (- z)%Z else z.

(** What follows the integer and fraction parts: nothing, or an exponent. *)
Definition number_exponent (m : Q) (is_float : bool) (int_val : Z) (r : str) : option pyval :=
  match r with
  | [] => Some (if is_float then PyFloat (Fin (Qred m)) else PyInt int_val)
  | c :: r1 =>
      if (c =? 101) || (c =? 69) then
        let '(eneg, r2) :=
          match r1 with
          | 45 :: r' => (true, r')
          | 43 :: r' => (false, r')
          | _ => (false, r1)
          end in
        match digits r2 0 0 with
        | (_, O, _) => None
        | (ev, _, []) => Some (PyFloat (Fin (Qred (m * pow10 (signed eneg ev)))))
        | _ => None
        end
      else None
  end.

Definition number_fraction (neg : bool) (i : Z) (r : str) : option pyval :=
  match r with
  | 46 :: r1 =>
      match digits r1 0 0 with
      | (_, O, _) => None
      | (fv, fn, r2) =>
          let m := (inject_Z (signed neg (i * 10 ^ Z.of_nat fn + fv)) * pow10 (- Z.of_nat fn))%Q in
          number_exponent m true 0 r2
      end
  | _ => number_exponent (inject_Z (signed neg i)) false (signed neg i) r
  end.

Definition parse_number (s : str) : option pyval :=
  let '(neg, s1) := match s with 45 :: r => (true, r) | _ => (false, s) end in
  match s1 with
  | 48 :: r => number_fraction neg 0 r
  | c :: _ =>
      if between 49 57 c
      then let '(i, _, r) := digits s1 0 0 in number_fraction neg i r
      else None
  | [] => None
  end.

Definition atom_value (a : str) : option pyval :=
  if decide (a = u "true") then Some (PyBool true) else
  if decide (a = u "false") then Some (PyBool false) else
  if decide (a = u "null") then Some PyNone else
  if decide (a = u "NaN") then Some (PyFloat NaN) else
  if decide (a = u "Infinity") then Some (PyFloat (Inf false)) else
  if decide (a = u "-Infinity") then Some (PyFloat (Inf true)) else
  parse_number a.

(** *** The parser *)

Fixpoint parse_value (fuel : nat) (ts : list token) : option (pyval * list token) :=
  match fuel with
  | O => None
  | S f =>
      match ts with
      | TStr s :: r => Some (PyStr s, r)
      | TAtom a :: r =>
          match atom_value a with Some v => Some (v, r) | None => None end
      | TLBrack :: TRBrack :: r => Some (PyList [], r)
      | TLBrack :: r => parse_elements f r []
      | TLBrace :: TRBrace :: r => Some (PyDict [], r)
      | TLBrace :: r => parse_members f r []
      | _ => None
      end
  end
with parse_elements (fuel : nat) (ts : list token) (acc : list pyval)
  : option (pyval * list token) :=
  match fuel with
  | O => None
  | S f =>
      match parse_value f ts with
      | Some (v, TComma :: r) => parse_elements f r (acc ++ [v])
      | Some (v, TRBrack :: r) => Some (PyList (acc ++ [v]), r)
      | _ => None
      end
  end
with parse_members (fuel : nat) (ts : list token) (acc : list (str * pyval))
  : option (pyval * list token) :=
  match fuel with
  | O => None
  | S f =>
      match ts with
      | TStr k :: TColon :: r =>
          match parse_value f r with
          | Some (v, TComma :: r') => parse_members f r' (dict_set k v acc)
          | Some (v, TRBrace :: r') => Some (PyDict (dict_set k v acc), r')
          | _ => None
          end
      | _ => None
      end
  end.

Definition parse (ts : list token) : option pyval :=
  match parse_value (2 * length ts) ts with
  | Some (v, []) => Some v
  | _ => None
  end.

(** The parser [p] consumes a non-empty prefix of [ts], returns [x] and
    leaves [r], with every fuel from twice the length of the prefix on. *)
Definition enough {A} (p : nat -> list token -> option (A * list token))
    (ts : list token) (x : A) (r : list token) : Prop :=
  exists n, length ts = (n + length r)%nat /\ (1 <= n)%nat
            /\ forall g, (2 * n <= g)%nat -> p g ts = Some (x, r).

(** [json.loads(s)]: [None] stands for raising [json.JSONDecodeError]. *)
Definition loads (s : str) : option pyval :=
  match lex s with
  | Some ts => parse ts
  | None => None
  end.

End Json.

(** ** app/models/schemas.py

    The pydantic models.  A constructor call with keyword arguments validates its
    keyword arguments and raises [ValidationError] when a required field is
    missing, has the wrong type, or violates its [ge]/[le] bound.  A float
    field takes a JSON number (or bool); a str field takes a string; the
    lax-mode coercions on which pydantic versions differ (numeric strings to
    float, numbers to str) are treated as invalid. *)

Inductive TaskStatus := QUEUED | PROCESSING | COMPLETED | FAILED.

Record CVEvaluation := {
  technical_skills_match : Q;
  experience_level : Q;
  relevant_achievements : Q;
  cultural_fit : Q;
  cv_overall_score : Q
}.

Record ProjectEvaluation := {
  correctness : Q;
  code_quality : Q;
  resilience : Q;
  documentation : Q;
  creativity : Q;
  project_overall_score : Q
}.

Record EvaluationResult := {
  cv_match_rate : Q;
  cv_feedback : str;
  project_score : Q;
  project_feedback : str;
  overall_summary : str;
  cv_evaluation_details : option CVEvaluation;
  project_evaluation_details : option ProjectEvaluation
}.

Record ExtractedCVData := {
  skills : list str;
  experiences : list str;
  projects : list str;
  education : list str;
  years_of_experience : option Z;
  achievements : list str
}.

Module Pydantic.

Definition as_float (v : pyval) : option pyfloat :=
  match v with
  | PyInt n => Some (Fin (inject_Z n))
  | PyFloat f => Some f
  | PyBool b => Some (Fin (if b then 1 else 0)%Q)
  | _ => None
  end.

(** [float = Field(ge=lo, le=hi)] *)
Definition bounded_float (lo hi : Q) (v : pyval) : option Q :=
  match as_float v with
  | Some (Fin q) => if Qle_bool lo q && Qle_bool q hi then Some q else None
  | _ => None
  end.

Definition as_str (v : pyval) : option str :=
  match v with PyStr s => Some s | _ => None end.

(** [List[str]] *)
Definition as_str_list (v : pyval) : option (list str) :=
  match v with
  | PyList l => mapM as_str l
  | _ => None
  end.

(** [Optional[int]] *)
Definition as_optional_int (v : pyval) : option (option Z) :=
  match v with
  | PyNone => Some None
  | PyInt n => Some (Some n)
  | PyBool b => Some (Some (if b then 1 else 0)%Z)
  | PyFloat (Fin q) =>
      if decide (Qden (Qred q) = 1%positive) then Some (Some (Qnum (Qred q))) else None
  | _ => None
  end.

Definition required {A} (coerce : pyval -> option A) (k : string)
    (kwargs : list (str * pyval)) : option A :=
  match dict_get (u k) kwargs with
  | Some v => coerce v
  | None => None
  end.

Definition invalid {A} (model : string) (o : option A) : outcome A :=
  match o with
  | Some a => Ok a
  | None => Raise (ValidationError (u "validation error for " ++ u model))
  end.

Definition make_CVEvaluation (kwargs : list (str * pyval)) : outcome CVEvaluation :=
  invalid "CVEvaluation"
    (a ← required (bounded_float 1 5) "technical_skills_match" kwargs;
     b ← required (bounded_float 1 5) "experience_level" kwargs;
     c ← required (bounded_float 1 5) "relevant_achievements" kwargs;
     d ← required (bounded_float 1 5) "cultural_fit" kwargs;
     e ← required (bounded_float 1 5) "overall_score" kwargs;
     Some (Build_CVEvaluation a b c d e)).

Definition make_ProjectEvaluation (kwargs : list (str * pyval)) : outcome ProjectEvaluation :=
  invalid "ProjectEvaluation"
    (a ← required (bounded_float 1 5) "correctness" kwargs;
     b ← required (bounded_float 1 5) "code_quality" kwargs;
     c ← required (bounded_float 1 5) "resilience" kwargs;
     d ← required (bounded_float 1 5) "documentation" kwargs;
     e ← required (bounded_float 1 5) "creativity" kwargs;
     f ← required (bounded_float 1 5) "overall_score" kwargs;
     Some (Build_ProjectEvaluation a b c d e f)).

Definition make_ExtractedCVData (kwargs : list (str * pyval)) : outcome ExtractedCVData :=
  invalid "ExtractedCVData"
    (a ← required as_str_list "skills" kwargs;
     b ← required as_str_list "experiences" kwargs;
     c ← required as_str_list "projects" kwargs;
     d ← required as_str_list "education" kwargs;
     y ← match dict_get (u "years_of_experience") kwargs with
         | Some v => as_optional_int v
         | None => Some None
         end;
     e ← required as_str_list "achievements" kwargs;
     Some (Build_ExtractedCVData a b c d y e)).

Definition make_EvaluationResult (rate feedback score pfeedback : pyval) (summary : str)
    (cv : CVEvaluation) (pe : ProjectEvaluation) : outcome EvaluationResult :=
  invalid "EvaluationResult"
    (r ← bounded_float 0 1 rate;
     f ← as_str feedback;
     s ← bounded_float 1 10 score;
     pf ← as_str pfeedback;
     Some (Build_EvaluationResult r f s pf summary (Some cv) (Some pe))).

End Pydantic.

(** [v[k]] on a dynamically typed value. *)
Definition getitem (v : pyval) (k : string) : outcome pyval :=
  match v with
  | PyDict d =>
      match dict_get (u k) d with
      | Some x => Ok x
      | None => Raise (KeyError (u k))
      end
  | _ => Raise (TypeError (u "object is not subscriptable with a str key"))
  end.

(** Unpacking [v] as the keyword arguments of a call. *)
Definition kwargs_of (v : pyval) : outcome (list (str * pyval)) :=
  match v with
  | PyDict d => Ok d
  | _ => Raise (TypeError (u "argument after ** must be a mapping"))
  end.

(** ** The gateway monad

    A computation that calls the generation service: it reads and advances
    the number of raw calls made so far, and returns or raises. *)

Definition M (A : Type) : Type := nat -> outcome A * nat.

Definition ret {A} (a : A) : M A := fun n => (Ok a, n).

Definition raise {A} (e : exn) : M A := fun n => (Raise e, n).

Definition bind {A B} (m : M A) (k : A -> M B) : M B :=
  fun n => match m n with
           | (Ok a, n') => k a n'
           | (Raise e, n') => (Raise e, n')
           end.

Definition lift {A} (r : outcome A) : M A := fun n => (r, n).

(** [try: body  except <classes>: handler]; [handler e = None] when [e] is
    not an instance of the caught classes. *)
Definition try_except {A} (body : M A) (handler : exn -> option (M A)) : M A :=
  fun n => match body n with
           | (Ok a, n') => (Ok a, n')
           | (Raise e, n') =>
               match handler e with
               | Some h => h n'
               | None => (Raise e, n')
               end
           end.

Notation "x <- m ;; k" := (bind m (fun x => k))
  (at level 100, m at next level, right associativity).

(** ** app/services/gemini_service.py *)

Record CVMatchInput := {
  cm_job_description : str;
  cm_retrieved_context : str;
  cm_cv_data : ExtractedCVData
}.

(** The prompts are f-strings over these values; a prompt is kept as the
    values it is rendered from. *)
Inductive prompt :=
| CVStructurePrompt (cv_text : str)
| CVMatchPrompt (input : CVMatchInput)
| ProjectInitialPrompt (scoring_rubric project_text : str)
| ProjectRefinementPrompt (initial_data : pyval) (project_excerpt : str)
| SummaryPrompt (cv_match_rate cv_feedback project_score project_feedback : pyval).

(** The external generation service, [model.generate_content(...)] followed
    by [response.text]: what the [n]-th raw call of the process answers to a
    prompt at a temperature. *)
Definition service := nat -> prompt -> Q -> outcome str.

Definition empty_profile : ExtractedCVData :=
  {| skills := []; experiences := []; projects := []; education := [];
     years_of_experience := None; achievements := [] |}.

Definition default_cv_evaluation : CVEvaluation :=
  {| technical_skills_match := 3; experience_level := 3; relevant_achievements := 3;
     cultural_fit := 3; cv_overall_score := 3 |}.

Definition default_project_evaluation : ProjectEvaluation :=
  {| correctness := 3; code_quality := 3; resilience := 3;
     documentation := 3; creativity := 3; project_overall_score := 3 |}.

Definition default_cv_match : pyval * pyval * CVEvaluation :=
  (PyFloat (Fin (1 # 2)), PyStr (u "Unable to evaluate CV properly"), default_cv_evaluation).

Definition default_project_report : pyval * pyval * ProjectEvaluation :=
  (PyFloat (Fin 5), PyStr (u "Unable to evaluate project properly"),
   default_project_evaluation).

Definition default_summary : str :=
  u "Unable to generate comprehensive summary due to evaluation errors.".

(** The cleaning every structured call applies to the response text. *)
Definition clean_response (response : str) : str :=
  let json_text := strip response in
  if startswith json_text (u "```json") then slice_to_end 7 3 json_text
  else if startswith json_text (u "```") then slice_to_end 3 3 json_text
  else json_text.

Definition json_loads (s : str) : outcome pyval :=
  match Json.loads s with
  | Some v => Ok v
  | None => Raise (JSONDecodeError (u "Expecting value"))
  end.

(** Formatting with [:.2f]: floats and bools format, an int formats when
    it converts to a float (rounding to nearest, it does below
    2^1024 - 2^970 in absolute value), a str raises [ValueError], other
    values raise [TypeError]. *)
Definition format_2f (v : pyval) : outcome unit :=
  match v with
  | PyInt n =>
      if (Z.abs n <? 2 ^ 1024 - 2 ^ 970)%Z then Ok tt
      else Raise (OverflowError (u "int too large to convert to float"))
  | PyFloat _ | PyBool _ => Ok tt
  | PyStr _ => Raise (ValueError (u "Unknown format code 'f' for object of type 'str'"))
  | _ => Raise (TypeError (u "unsupported format string passed to __format__"))
  end.

(** [@retry(...)] of tenacity: the call is repeated while it raises; when
    the stop condition holds the decorator raises [RetryError] around the
    last outcome ([reraise] is not set).  [more] is the number of attempts
    still allowed after this one.  The waits between attempts take time only. *)
Fixpoint retry {A} (more : nat) (call : M A) : M A :=
  fun n =>
    match call n with
    | (Ok a, n') => (Ok a, n')
    | (Raise e, n') =>
        match more with
        | O => (Raise (RetryError e), n')
        | S k => retry k call n'
        end
    end.

Definition stop_after_attempt : nat := 3.

Section GeminiService.

Variable svc : service.

(** The body of [generate_content_async]: one raw call; an exception is
    logged and raised again. *)
Definition generate_content_once (p : prompt) (temperature : Q) : M str :=
  fun n => (svc n p temperature, S n).

Definition generate_content_async (p : prompt) (temperature : Q) : M str :=
  retry (stop_after_attempt - 1) (generate_content_once p temperature).

Definition extract_cv_structure (cv_text : str) : M ExtractedCVData :=
  try_except
    (response <- generate_content_async (CVStructurePrompt cv_text) (1 # 10) ;;
     data <- lift (json_loads (clean_response response)) ;;
     kw <- lift (kwargs_of data) ;;
     lift (Pydantic.make_ExtractedCVData kw))
    (fun e => match e with
              | JSONDecodeError _ => Some (ret empty_profile)
              | _ => None
              end).

Definition evaluate_cv_match (cv_data : ExtractedCVData) (job_description : str)
    (retrieved_context : str) : M (pyval * pyval * CVEvaluation) :=
  try_except
    (response <- generate_content_async
                   (CVMatchPrompt (Build_CVMatchInput job_description retrieved_context cv_data))
                   (1 # 10) ;;
     data <- lift (json_loads (clean_response response)) ;;
     scores <- lift (getitem data "detailed_scores") ;;
     kw <- lift (kwargs_of scores) ;;
     cv_evaluation <- lift (Pydantic.make_CVEvaluation kw) ;;
     match_rate <- lift (getitem data "match_rate") ;;
     feedback <- lift (getitem data "feedback") ;;
     ret (match_rate, feedback, cv_evaluation))
    (fun e => match e with
              | JSONDecodeError _ | KeyError _ => Some (ret default_cv_match)
              | _ => None
              end).

Definition evaluate_project_report (project_text : str) (scoring_rubric : str)
    : M (pyval * pyval * ProjectEvaluation) :=
  try_except
    (initial_response <- generate_content_async
                           (ProjectInitialPrompt scoring_rubric project_text) (2 # 10) ;;
     initial_data <- lift (json_loads (clean_response initial_response)) ;;
     refined_response <- generate_content_async
                           (ProjectRefinementPrompt initial_data (take 1000 project_text))
                           (1 # 10) ;;
     refined_data <- lift (json_loads (clean_response refined_response)) ;;
     scores <- lift (getitem refined_data "detailed_scores") ;;
     kw <- lift (kwargs_of scores) ;;
     project_evaluation <- lift (Pydantic.make_ProjectEvaluation kw) ;;
     score <- lift (getitem refined_data "score") ;;
     feedback <- lift (getitem refined_data "feedback") ;;
     ret (score, feedback, project_evaluation))
    (fun e => match e with
              | JSONDecodeError _ | KeyError _ => Some (ret default_project_report)
              | _ => None
              end).

(** The prompt is formatted before the [try]. *)
Definition generate_overall_summary (cv_feedback project_feedback : pyval)
    (cv_match_rate project_score : pyval) : M str :=
  _ <- lift (format_2f cv_match_rate) ;;
  try_except
    (generate_content_async
       (SummaryPrompt cv_match_rate cv_feedback project_score project_feedback) (3 # 10))
    (fun _ => Some (ret default_summary)).

End GeminiService.

(** ** app/services/vector_db.py *)

Module VectorDB.

(** A stored document is a dict; [documents] is the dict of documents by
    id, in insertion order. *)
Definition doc_dict := list (str * pyval).
Definition documents := list (str * doc_dict).

Record retrieved_doc := {
  content : str;
  metadata_type : pyval;
  metadata_category : pyval;
  score : nat
}.

Definition item (d : doc_dict) (k : string) : outcome pyval :=
  match dict_get (u k) d with
  | Some v => Ok v
  | None => Raise (KeyError (u k))
  end.

(** [v != s] for a str [s]. *)
Definition ne_str (v : pyval) (s : str) : bool :=
  match v with
  | PyStr t => negb (bool_decide (t = s))
  | _ => true
  end.

(** Truth value of an optional str: [None] and the empty str are false. *)
Definition truthy (o : option str) : bool :=
  match o with
  | Some (_ :: _) => true
  | _ => false
  end.

(** The receiver of [.lower()] must be a str. *)
Definition text_of (v : pyval) : outcome str :=
  match v with
  | PyStr s => Ok s
  | _ => Raise (AttributeError (u "object has no attribute 'lower'"))
  end.

(** [self.documents[doc_id] = {...}] *)
Fixpoint store (doc_id : str) (d : doc_dict) (docs : documents) : documents :=
  match docs with
  | [] => [(doc_id, d)]
  | (k, d') :: rest =>
      if decide (k = doc_id) then (doc_id, d) :: rest else (k, d') :: store doc_id d rest
  end.

Definition add_document (content doc_id doc_type category : str) (docs : documents)
    : documents :=
  store doc_id
    [(u "id", PyStr doc_id); (u "content", PyStr content);
     (u "type", PyStr doc_type); (u "category", PyStr category)]
    docs.

(** [x] is placed before the first element whose score is not larger. *)
Fixpoint insert_desc (x : retrieved_doc) (l : list retrieved_doc) : list retrieved_doc :=
  match l with
  | [] => [x]
  | y :: l' => if (score y <=? score x)%nat then x :: l else y :: insert_desc x l'
  end.

(** [l.sort(key=score, reverse=True)]: stable, descending. *)
Fixpoint sort_desc (l : list retrieved_doc) : list retrieved_doc :=
  match l with
  | [] => []
  | x :: l' => insert_desc x (sort_desc l')
  end.

(** [l[:n]] for any integer [n]. *)
Definition slice_upto {A} (n : Z) (l : list A) : list A :=
  if (0 <=? n)%Z then take (Z.to_nat n) l
  else take (Z.to_nat (Z.of_nat (length l) + n)) l.

Section Retrieval.

Variable lower : str -> str.

Definition keyword_score (query_words : list str) (content_lower : str) : nat :=
  length (filter (fun word => contains content_lower word = true) query_words).

(** The loop over [self.documents.items()]. *)
Fixpoint scan (docs : documents) (query_words : list str) (context_type : option str)
    : outcome (list retrieved_doc) :=
  match docs with
  | [] => Ok []
  | (doc_id, doc_data) :: rest =>
      rbind (if truthy context_type
             then rbind (item doc_data "type")
                    (fun t => Ok (ne_str t (default [] context_type)))
             else Ok false)
        (fun skip =>
           if (skip : bool) then scan rest query_words context_type
           else
             rbind (item doc_data "content") (fun c =>
             rbind (text_of c) (fun text =>
             let sc := keyword_score query_words (lower text) in
             if (0 <? sc)%nat then
               rbind (item doc_data "type") (fun t =>
               rbind (item doc_data "category") (fun cat =>
               rbind (scan rest query_words context_type) (fun more =>
               Ok ({| content := text; metadata_type := t;
                      metadata_category := cat; score := sc |} :: more))))
             else scan rest query_words context_type)))
  end.

(** The body of the [try]. *)
Definition retrieve_body (docs : documents) (query : str) (context_type : option str)
    (n_results : Z) : outcome (list retrieved_doc) :=
  let query_words := split (lower query) in
  rbind (scan docs query_words context_type) (fun retrieved_docs =>
  Ok (slice_upto n_results (sort_desc retrieved_docs))).

Definition retrieve_context (docs : documents) (query : str) (context_type : option str)
    (n_results : Z) : outcome (list retrieved_doc) :=
  match retrieve_body docs query context_type n_results with
  | Ok retrieved_docs => Ok retrieved_docs
  | Raise _ => Ok []
  end.

End Retrieval.

Definition job_desc_backend_content : string :=
"
                Backend Developer Position Requirements:
                
                Technical Skills Required:
                - Proficiency in Python, Java, or Node.js
                - Experience with REST API development and design
                - Knowledge of databases (SQL and NoSQL)
                - Cloud platforms experience (AWS, GCP, Azure)
                - Understanding of microservices architecture
                - Version control with Git
                - Experience with Docker and containerization
                - API documentation and testing
                
                Experience Requirements:
                - 3+ years of backend development experience
                - Experience with high-traffic applications
                - Knowledge of system design principles
                - Experience with CI/CD pipelines
                - Understanding of security best practices
                
                Preferred Skills:
                - AI/ML integration experience
                - Experience with LLM APIs
                - Knowledge of vector databases
                - Experience with async programming
                - DevOps and infrastructure knowledge
                
                Cultural Fit:
                - Strong problem-solving skills
                - Good communication abilities
                - Team collaboration experience
                - Continuous learning mindset
                - Attention to detail
                ".

Definition scoring_rubric_cv_content : string :=
"
                CV Evaluation Scoring Rubric:
                
                Technical Skills Match (1-5):
                5 - Exceptional: All required skills + advanced expertise
                4 - Strong: Most required skills + some advanced areas
                3 - Good: Core required skills present
                2 - Adequate: Some required skills, gaps present
                1 - Insufficient: Major skill gaps
                
                Experience Level (1-5):
                5 - Senior level with complex project leadership
                4 - Mid-senior with significant contributions
                3 - Mid-level with relevant experience
                2 - Junior with some relevant experience
                1 - Entry level or limited experience
                
                Relevant Achievements (1-5):
                5 - Outstanding achievements with measurable impact
                4 - Strong achievements in relevant areas
                3 - Good achievements demonstrating competence
                2 - Some achievements, limited impact shown
                1 - Few or no relevant achievements
                
                Cultural Fit (1-5):
                5 - Excellent communication, leadership, learning attitude
                4 - Strong collaboration and communication skills
                3 - Good team player with communication skills
                2 - Adequate interpersonal skills
                1 - Limited evidence of soft skills
                ".

Definition scoring_rubric_project_content : string :=
"
                Project Deliverable Evaluation Rubric:
                
                Correctness (1-5):
                5 - Fully meets all requirements with excellent implementation
                4 - Meets most requirements with good implementation
                3 - Meets core requirements adequately
                2 - Partially meets requirements
                1 - Fails to meet basic requirements
                
                Code Quality (1-5):
                5 - Exceptional: Clean, modular, well-documented, testable
                4 - Good: Well-structured with good practices
                3 - Adequate: Readable with some structure
                2 - Poor: Limited structure, hard to follow
                1 - Very poor: Messy, unorganized code
                
                Resilience (1-5):
                5 - Comprehensive error handling, retries, fault tolerance
                4 - Good error handling with some resilience features
                3 - Basic error handling present
                2 - Limited error handling
                1 - Poor or no error handling
                
                Documentation (1-5):
                5 - Excellent: Complete README, API docs, design explanations
                4 - Good: Clear README with setup and usage instructions
                3 - Adequate: Basic documentation present
                2 - Limited: Minimal documentation
                1 - Poor: Little to no documentation
                
                Creativity/Bonus (1-5):
                5 - Exceptional additional features and innovations
                4 - Good additional features or improvements
                3 - Some creative elements or enhancements
                2 - Minor additional features
                1 - No additional features beyond requirements
                ".

(** [_populate_initial_data] on the empty store. *)
Definition default_documents : documents :=
  store (u "scoring_rubric_project")
    [(u "id", PyStr (u "scoring_rubric_project"));
     (u "content", PyStr (u scoring_rubric_project_content));
     (u "type", PyStr (u "scoring_rubric"));
     (u "category", PyStr (u "project_evaluation"))]
  (store (u "scoring_rubric_cv")
    [(u "id", PyStr (u "scoring_rubric_cv"));
     (u "content", PyStr (u scoring_rubric_cv_content));
     (u "type", PyStr (u "scoring_rubric"));
     (u "category", PyStr (u "cv_evaluation"))]
  (store (u "job_desc_backend")
    [(u "id", PyStr (u "job_desc_backend"));
     (u "content", PyStr (u job_desc_backend_content));
     (u "type", PyStr (u "job_description"));
     (u "category", PyStr (u "backend_developer"))]
    [])).

End VectorDB.

(** ** app/utils/document_processor.py *)

Module DocumentProcessor.

(** The suffix of [s] after the last occurrence of [c]. *)
Fixpoint after_last (c : N) (s : str) : option str :=
  match s with
  | [] => None
  | x :: s' =>
      match after_last c s' with
      | Some r => Some r
      | None => if x =? c then Some s' else None
      end
  end.

Fixpoint skip_dots (s : str) : str :=
  match s with
  | 46 :: s' => skip_dots s'
  | _ => s
  end.

(** [os.path.splitext(p)[1]] (POSIX): the extension starts at the last dot of
    the last path component, leading dots of the component not counting. *)
Definition splitext_ext (p : str) : str :=
  let name := default p (after_last 47 p) in
  match after_last 46 (skip_dots name) with
  | Some e => 46 :: e
  | None => []
  end.

Inductive file_kind := PDF | DOCX | TXT.

Section Extraction.

Variable lower : str -> str.

(** What the format-specific readers ([PyPDF2], [python-docx], [aiofiles])
    give for a path: the text, or the exception they raise. *)
Variable reader : file_kind -> str -> outcome str.

Definition extract_text_from_file (file_path : str) : outcome str :=
  let file_extension := lower (splitext_ext file_path) in
  if decide (file_extension = u ".pdf") then reader PDF file_path
  else if bool_decide (file_extension ∈ [u ".docx"; u ".doc"]) then reader DOCX file_path
  else if decide (file_extension = u ".txt") then reader TXT file_path
  else Raise (ValueError (u "Unsupported file format: " ++ file_extension)).

Definition validate_file_format (filename : str) : bool :=
  let allowed_extensions := [u ".pdf"; u ".docx"; u ".doc"; u ".txt"] in
  let file_extension := lower (splitext_ext filename) in
  bool_decide (file_extension ∈ allowed_extensions).

End Extraction.

End DocumentProcessor.

(** ** app/models/database.py *)

(** A row of [evaluation_tasks]; the primary key [id] is the key of the
    table.  [updated_at] is not modelled. *)
Record EvaluationTask := {
  status : TaskStatus;
  cv_file_path : str;
  project_report_path : str;
  job_description : option str;
  result : option EvaluationResult;
  error_message : option str;
  created_at : Z
}.

Abbreviation table := (gmap str EvaluationTask).

(** ** app/services/evaluation_pipeline.py *)

Module EvaluationPipeline.

Import VectorDB DocumentProcessor.

(** The draw of [_simulate_processing_delay]: [random.random() < 0.05] and,
    when it holds, the message [random.choice] picks. *)
Inductive failure_choice := RateLimit | NetworkTimeout | ServiceUnavailable.

Definition failure_message (c : failure_choice) : str :=
  match c with
  | RateLimit => u "Gemini API rate limit exceeded"
  | NetworkTimeout => u "Network timeout during AI processing"
  | ServiceUnavailable => u "Temporary service unavailable"
  end.

Definition _simulate_processing_delay (draw : option failure_choice) : outcome unit :=
  match draw with
  | Some c => Raise (Exception (failure_message c))
  | None => Ok tt
  end.

Definition set_processing (t : EvaluationTask) : EvaluationTask :=
  {| status := PROCESSING; cv_file_path := cv_file_path t;
     project_report_path := project_report_path t;
     job_description := job_description t; result := result t;
     error_message := error_message t; created_at := created_at t |}.

Definition set_completed (r : EvaluationResult) (t : EvaluationTask) : EvaluationTask :=
  {| status := COMPLETED; cv_file_path := cv_file_path t;
     project_report_path := project_report_path t;
     job_description := job_description t; result := Some r;
     error_message := error_message t; created_at := created_at t |}.

Definition set_failed (msg : str) (t : EvaluationTask) : EvaluationTask :=
  {| status := FAILED; cv_file_path := cv_file_path t;
     project_report_path := project_report_path t;
     job_description := job_description t; result := result t;
     error_message := Some msg; created_at := created_at t |}.

(** [x or d] for an optional str. *)
Definition or_default (x : option str) (d : str) : str :=
  match x with
  | Some (c :: s) => c :: s
  | _ => d
  end.

Section Pipeline.

Variable lower : str -> str.
Variable svc : service.
Variable docs : documents.
Variable reader : file_kind -> str -> outcome str.

(** Steps 2 to 5 and the construction of the result, from the extracted
    profile on. *)
Definition evaluate_profile (task : EvaluationTask) (project_text : str)
    (cv_data : ExtractedCVData) : M EvaluationResult :=
  job_context <- lift (retrieve_context lower docs
                         (u "backend developer requirements " ++ join (u " ") (take 5 (skills cv_data)))
                         (Some (u "job_description")) 2) ;;
  cv_context <- lift (retrieve_context lower docs
                        (u "CV evaluation scoring technical skills experience")
                        (Some (u "scoring_rubric")) 1) ;;
  let combined_cv_context := join [10; 10] (map content (job_context ++ cv_context)) in
  cv <- evaluate_cv_match svc cv_data
          (or_default (job_description task) (u "Backend Developer Position"))
          combined_cv_context ;;
  let '(cv_match_rate, cv_feedback, cv_evaluation) := cv in
  project_context <- lift (retrieve_context lower docs
      (u "project evaluation rubric code quality correctness resilience documentation")
      (Some (u "scoring_rubric")) 2) ;;
  let project_rubric := join [10; 10] (map content project_context) in
  pr <- evaluate_project_report svc project_text project_rubric ;;
  let '(project_score, project_feedback, project_evaluation) := pr in
  overall_summary <- generate_overall_summary svc cv_feedback project_feedback
                       cv_match_rate project_score ;;
  lift (Pydantic.make_EvaluationResult cv_match_rate cv_feedback project_score
          project_feedback overall_summary cv_evaluation project_evaluation).

Definition _execute_pipeline (task : EvaluationTask) : M EvaluationResult :=
  cv_text <- lift (extract_text_from_file lower reader (cv_file_path task)) ;;
  project_text <- lift (extract_text_from_file lower reader (project_report_path task)) ;;
  cv_data <- extract_cv_structure svc cv_text ;;
  evaluate_profile task project_text cv_data.

(** The body of the [try] of [run_evaluation] after the first commit: the
    lookup of the task, the simulated delay, the pipeline.  [calls] is the
    number of raw service calls the process has made before. *)
Definition evaluate (draw : option failure_choice) (calls : nat) (task_id : str)
    (db : table) : outcome EvaluationResult :=
  match db !! task_id with
  | None => Raise (ValueError (u "Task " ++ task_id ++ u " not found"))
  | Some task =>
      rbind (_simulate_processing_delay draw) (fun _ =>
      fst (_execute_pipeline task calls))
  end.

(** [run_evaluation]: the states of the table after each commit, in order,
    and how the call ends ([Raise e] for the final [raise]). *)
Definition run_evaluation (draw : option failure_choice) (calls : nat) (task_id : str)
    (db : table) : list table * outcome unit :=
  let db1 := alter set_processing task_id db in
  match evaluate draw calls task_id db1 with
  | Ok evaluation_result =>
      ([db1; alter (set_completed evaluation_result) task_id db1], Ok tt)
  | Raise e =>
      ([db1; alter (set_failed (str_exn e)) task_id db1], Raise e)
  end.

End Pipeline.

End EvaluationPipeline.

(** ** app/api/routes.py *)

Module Routes.

Import DocumentProcessor.

Definition UPLOAD_DIR : str := u "uploads".
Definition MAX_FILE_SIZE : N := 10 * 1024 * 1024.

Record UploadFile := { filename : str; body : list N }.

Record TaskResponse := { response_id : str; response_status : TaskStatus }.

Record TaskResultResponse := {
  trr_id : str;
  trr_status : TaskStatus;
  trr_result : option EvaluationResult;
  trr_error : option str;
  trr_created_at : Z
}.

Record TaskListEntry := {
  entry_id : str;
  entry_status : TaskStatus;
  entry_created_at : Z;
  entry_cv_file : str;
  entry_project_file : str;
  entry_job_description : option str;
  entry_result : option EvaluationResult;
  entry_error : option str
}.

(** What the routes act on: the task table, the paths that exist in
    storage, and the task ids handed to [background_tasks.add_task] for
    [run_evaluation]. *)
Record server := {
  db : table;
  files : gset str;
  scheduled : list str
}.

(** A task as [EvaluationTask(...)] builds it: the id comes from [uuid4],
    [created_at] from the server clock, result and error are NULL. *)
Definition queued_task (cv_path project_path : str) (description : str) (now : Z)
    : EvaluationTask :=
  {| status := QUEUED; cv_file_path := cv_path; project_report_path := project_path;
     job_description := Some description; result := None; error_message := None;
     created_at := now |}.

(** [db.add(task); commit; refresh] and [background_tasks.add_task]: a
    primary-key clash makes the commit raise, which the route turns into
    a 500 response. *)
Definition add_and_schedule (failure : str) (new_id : str) (task : EvaluationTask)
    (s : server) : outcome TaskResponse * server :=
  match db s !! new_id with
  | Some _ => (Raise (HTTPException 500 failure), s)
  | None =>
      (Ok {| response_id := new_id; response_status := QUEUED |},
       {| db := <[new_id := task]> (db s); files := files s;
          scheduled := scheduled s ++ [new_id] |})
  end.

Definition default_job_description : str := u "Backend Developer position".

(** [POST /evaluate] *)
Definition create_evaluation_task (cv_path project_path : str)
    (description : option str) (new_id : str) (now : Z) (s : server)
    : outcome TaskResponse * server :=
  if negb (bool_decide (cv_path ∈ files s))
  then (Raise (HTTPException 404 (u "CV file not found")), s)
  else if negb (bool_decide (project_path ∈ files s))
  then (Raise (HTTPException 404 (u "Project report file not found")), s)
  else add_and_schedule (u "Failed to create evaluation task")
         new_id
         (queued_task cv_path project_path (default default_job_description description) now)
         s.

Section Direct.

Variable lower : str -> str.

(** [POST /evaluate-direct] *)
Definition evaluate_files_direct (cv_file project_report : UploadFile)
    (description : option str) (session_id new_id : str) (now : Z) (s : server)
    : outcome TaskResponse * server :=
  if negb (validate_file_format lower (filename cv_file))
  then (Raise (HTTPException 400 (u "Invalid CV file format. Supported: PDF, DOCX, TXT")), s)
  else if negb (validate_file_format lower (filename project_report))
  then (Raise (HTTPException 400
                 (u "Invalid project report file format. Supported: PDF, DOCX, TXT")), s)
  else if MAX_FILE_SIZE <? N.of_nat (length (body cv_file))
  then (Raise (HTTPException 400 (u "CV file too large (max 10MB)")), s)
  else if MAX_FILE_SIZE <? N.of_nat (length (body project_report))
  then (Raise (HTTPException 400 (u "Project report file too large (max 10MB)")), s)
  else
    let cv_path := UPLOAD_DIR ++ u "/" ++ session_id ++ u "_cv_" ++ filename cv_file in
    let project_path :=
      UPLOAD_DIR ++ u "/" ++ session_id ++ u "_project_" ++ filename project_report in
    add_and_schedule (u "Failed to upload and evaluate files")
      new_id
      (queued_task cv_path project_path (default default_job_description description) now)
      {| db := db s; files := {[cv_path]} ∪ ({[project_path]} ∪ files s);
         scheduled := scheduled s |}.

End Direct.

(** Truth value of an optional str column. *)
Definition nonempty (o : option str) : option str :=
  match o with
  | Some (c :: m) => Some (c :: m)
  | _ => None
  end.

(** [GET /result/{task_id}] *)
Definition get_evaluation_result (task_id : str) (t : table) : outcome TaskResultResponse :=
  match t !! task_id with
  | None => Raise (HTTPException 404 (u "Task not found"))
  | Some task =>
      Ok {| trr_id := task_id; trr_status := status task;
            trr_result := match status task with COMPLETED => result task | _ => None end;
            trr_error :=
              match status task with FAILED => nonempty (error_message task) | _ => None end;
            trr_created_at := created_at task |}
  end.

(** [ORDER BY created_at DESC] over the rows. *)
Fixpoint insert_newest (x : str * EvaluationTask) (l : list (str * EvaluationTask))
    : list (str * EvaluationTask) :=
  match l with
  | [] => [x]
  | y :: l' =>
      if (created_at (snd y) <=? created_at (snd x))%Z then x :: l
      else y :: insert_newest x l'
  end.

Definition newest_first (l : list (str * EvaluationTask)) : list (str * EvaluationTask) :=
  foldr insert_newest [] l.

(** [OFFSET] and [LIMIT]; a negative offset counts as 0 and a negative
    limit as no limit (SQLite). *)
Definition page {A} (offset limit : Z) (l : list A) : list A :=
  let l' := drop (Z.to_nat offset) l in
  if (limit <? 0)%Z then l' else take (Z.to_nat limit) l'.

Definition last_component (path : str) : str :=
  default path (after_last 47 path).

Definition list_entry (include_results : bool) (row : str * EvaluationTask)
    : TaskListEntry :=
  let task := snd row in
  {| entry_id := fst row; entry_status := status task;
     entry_created_at := created_at task;
     entry_cv_file := last_component (cv_file_path task);
     entry_project_file := last_component (project_report_path task);
     entry_job_description := job_description task;
     entry_result :=
       if include_results
       then match status task with COMPLETED => result task | _ => None end
       else None;
     entry_error :=
       if include_results
       then match status task with FAILED => nonempty (error_message task) | _ => None end
       else None |}.

(** [GET /tasks] *)
Definition list_tasks (include_results : bool) (limit offset : Z) (t : table)
    : list TaskListEntry :=
  map (list_entry include_results) (page offset limit (newest_first (map_to_list t))).

(** [os.remove(path)] guarded by [os.path.exists(path)]; [remove_error]
    tells for which paths the removal raises. *)
Definition remove_if_exists (remove_error : str -> option exn) (path : str)
    (fs : gset str) : outcome (gset str) :=
  if bool_decide (path ∈ fs)
  then match remove_error path with
       | Some e => Raise e
       | None => Ok (fs ∖ {[path]})
       end
  else Ok fs.

(** The inner [try] of [delete_task]: an exception is logged and dropped. *)
Definition remove_task_files (remove_error : str -> option exn) (task : EvaluationTask)
    (fs : gset str) : gset str :=
  match remove_if_exists remove_error (cv_file_path task) fs with
  | Raise _ => fs
  | Ok fs1 =>
      match remove_if_exists remove_error (project_report_path task) fs1 with
      | Raise _ => fs1
      | Ok fs2 => fs2
      end
  end.

(** [DELETE /task/{task_id}] *)
Definition delete_task (remove_error : str -> option exn) (task_id : str) (s : server)
    : outcome str * server :=
  match db s !! task_id with
  | None => (Raise (HTTPException 404 (u "Task not found")), s)
  | Some task =>
      (Ok (u "Task " ++ task_id ++ u " deleted successfully"),
       {| db := delete task_id (db s);
          files := remove_task_files remove_error task (files s);
          scheduled := scheduled s |})
  end.

End Routes.

(** * The context store as the specification words it

    A [ContextDocument] has an id, a content, a type tag and a category tag;
    [store_of] is the store [add_document] builds from such documents. *)

Module ContextStore.

Import VectorDB.

Record ContextDocument := {
  doc_id : str;
  doc_content : str;
  doc_type : str;
  doc_category : str
}.

Definition to_dict (d : ContextDocument) : doc_dict :=
  [(u "id", PyStr (doc_id d)); (u "content", PyStr (doc_content d));
   (u "type", PyStr (doc_type d)); (u "category", PyStr (doc_category d))].

Definition store_of (ds : list ContextDocument) : documents :=
  map (fun d => (doc_id d, to_dict d)) ds.

Section Relevance.

Variable lower : str -> str.

(** relevance(doc) = count of query terms (case-insensitive, whitespace-
    split) that occur as substrings of the document content. *)
Definition relevance (query : str) (d : ContextDocument) : nat :=
  length (filter (fun term => contains (lower (doc_content d)) term = true)
            (split (lower query))).

(** The type filter as the claim words it: an absent filter admits every
    document, a given one the documents of that type. *)
Definition type_matches (type_filter : option str) (d : ContextDocument) : bool :=
  match type_filter with
  | None => true
  | Some t => bool_decide (doc_type d = t)
  end.

(** The type filter as the code applies it: the empty string filters
    nothing either. *)
Definition type_passes (type_filter : option str) (d : ContextDocument) : bool :=
  match type_filter with
  | Some (c :: t) => bool_decide (doc_type d = c :: t)
  | _ => true
  end.

Definition as_retrieved (query : str) (d : ContextDocument) : retrieved_doc :=
  {| content := doc_content d; metadata_type := PyStr (doc_type d);
     metadata_category := PyStr (doc_category d); score := relevance query d |}.

(** The documents of relevance above 0 that pass the filter, in insertion
    order. *)
Definition candidates (query : str) (type_filter : option str)
    (ds : list ContextDocument) : list retrieved_doc :=
  map (as_retrieved query)
    (filter (fun d => (0 <? relevance query d)%nat && type_passes type_filter d = true) ds).

End Relevance.

(** Descending by score. *)
Definition score_ge (a b : retrieved_doc) : Prop := (score b <= score a)%nat.

(** The three documents of [_populate_initial_data]. *)
Definition default_corpus : list ContextDocument :=
  [ {| doc_id := u "job_desc_backend"; doc_content := u job_desc_backend_content;
       doc_type := u "job_description"; doc_category := u "backend_developer" |};
    {| doc_id := u "scoring_rubric_cv"; doc_content := u scoring_rubric_cv_content;
       doc_type := u "scoring_rubric"; doc_category := u "cv_evaluation" |};
    {| doc_id := u "scoring_rubric_project"; doc_content := u scoring_rubric_project_content;
       doc_type := u "scoring_rubric"; doc_category := u "project_evaluation" |} ].

End ContextStore.

(** * The task lifecycle as the specification words it *)

Module Lifecycle.

(** Queued -> Processing -> Completed or Failed. *)
Inductive transition : TaskStatus -> TaskStatus -> Prop :=
| pick_up : transition QUEUED PROCESSING
| complete : transition PROCESSING COMPLETED
| fail : transition PROCESSING FAILED.

(** result is set iff status = Completed; error is set iff status = Failed;
    never both. *)
Definition task_invariant (t : EvaluationTask) : Prop :=
  (is_Some (result t) <-> status t = COMPLETED)
  /\ (is_Some (error_message t) <-> status t = FAILED)
  /\ ~ (is_Some (result t) /\ is_Some (error_message t)).

(** The row of a task in the last committed state of a run. *)
Definition final_row (task_id : str) (run : list table * outcome unit)
    : option EvaluationTask :=
  match last (fst run) with
  | Some t => t !! task_id
  | None => None
  end.





End Lifecycle.

(** * Concrete instances

    Inputs on which the properties below are exercised. *)

Module Instances.

Import EvaluationPipeline.

(** A service whose every call raises. *)
Definition always_failing : service := fun _ _ _ => Raise (Exception (u "boom")).

(** A response payload with surrounding line breaks, as the service sends
    it inside a fence. *)
Definition payload_example : str := [10] ++ js "{ 'a' : 1 }" ++ [10].

(** A store holding one document without a content. *)
Definition broken_documents : VectorDB.documents :=
  [(u "d1", [(u "id", PyStr (u "d1")); (u "type", PyStr (u "scoring_rubric"))])].

Definition profile_json : str :=
  js "{'skills': ['Python', 'Docker'], 'experiences': ['Backend engineer'], 'projects': [], 'education': ['BSc'], 'years_of_experience': 3, 'achievements': []}".

Definition cv_match_json : str :=
  js "{'match_rate': 0.8, 'feedback': 'Good match', 'detailed_scores': {'technical_skills_match': 4, 'experience_level': 3, 'relevant_achievements': 3.5, 'cultural_fit': 4, 'overall_score': 4}}".


Definition project_json : str :=
  js "```json
{'score': 7.5, 'feedback': 'Solid work', 'detailed_scores': {'correctness': 4, 'code_quality': 4, 'resilience': 3, 'documentation': 4, 'creativity': 3, 'overall_score': 4}}
```".


(** A service that answers every prompt as asked. *)
Definition well_behaved : service :=
  fun _ p _ =>
    match p with
    | CVStructurePrompt _ => Ok profile_json
    | CVMatchPrompt _ => Ok cv_match_json
    | ProjectInitialPrompt _ _ => Ok project_json
    | ProjectRefinementPrompt _ _ => Ok project_json
    | SummaryPrompt _ _ _ _ => Ok (u "Strong candidate; recommend an interview.")
    end.





(** Readers under which every file has text. *)
Definition readable : DocumentProcessor.file_kind -> str -> outcome str :=
  fun _ _ => Ok (u "Python and Docker; built a REST API.").

Definition task1 : str := u "task-1".

Definition queued1 : EvaluationTask :=
  Routes.queued_task (u "uploads/s1_cv_cv.txt") (u "uploads/s1_project_report.pdf")
    (u "Backend Developer position") 100.

Definition table1 : table := {[ task1 := queued1 ]}.


(** A server on which an executable and a text file exist, with no task. *)
Definition server0 : Routes.server :=
  {| Routes.db := ∅;
     Routes.files := {[ u "uploads/cv.exe"; u "uploads/report.txt" ]};
     Routes.scheduled := [] |}.

(** A server with one task whose CV file is gone and whose report exists. *)
Definition server1 : Routes.server :=
  {| Routes.db := table1;
     Routes.files := {[ u "uploads/s1_project_report.pdf" ]};
     Routes.scheduled := [] |}.

(** Removal of the report is refused. *)
Definition refuse_report : str -> option exn :=
  fun path =>
    if decide (path = u "uploads/s1_project_report.pdf")
    then Some (OSError (u "Permission denied"))
    else None.

End Instances.

(** * Further functions of the cited files *)

(** ** The state-and-error monad: counting raw calls *)

(** [m] makes at most [k] raw calls: from every count [n] it ends at a
    count between [n] and [n + k]. *)
Definition at_most {A} (k : nat) (m : M A) : Prop :=
  forall n, (n <= snd (m n) <= n + k)%nat.

(** ** app/services/vector_db.py: the service object *)

Module VectorDBService.

Import VectorDB.

(** [self.documents] and [self.initialized]. *)
Record state := {
  documents_of : documents;
  initialized : bool
}.

(** [__init__] *)
Definition __init__ : state := {| documents_of := []; initialized := false |}.

(** The loop [for data in default_data: self.documents[data["id"]] = data]. *)
Definition _populate_initial_data (docs : documents) : documents :=
  store (u "scoring_rubric_project")
    [(u "id", PyStr (u "scoring_rubric_project"));
     (u "content", PyStr (u scoring_rubric_project_content));
     (u "type", PyStr (u "scoring_rubric"));
     (u "category", PyStr (u "project_evaluation"))]
  (store (u "scoring_rubric_cv")
    [(u "id", PyStr (u "scoring_rubric_cv"));
     (u "content", PyStr (u scoring_rubric_cv_content));
     (u "type", PyStr (u "scoring_rubric"));
     (u "category", PyStr (u "cv_evaluation"))]
  (store (u "job_desc_backend")
    [(u "id", PyStr (u "job_desc_backend"));
     (u "content", PyStr (u job_desc_backend_content));
     (u "type", PyStr (u "job_description"));
     (u "category", PyStr (u "backend_developer"))]
    docs)).

(** [initialize]: the data is populated once. *)
Definition initialize (s : state) : state :=
  if initialized s then s
  else {| documents_of := _populate_initial_data (documents_of s); initialized := true |}.

(** [add_document] on the service object. *)
Definition add (content doc_id doc_type category : str) (s : state) : state :=
  {| documents_of := add_document content doc_id doc_type category (documents_of s);
     initialized := initialized s |}.

(** [self.documents[doc_id]], when the key is present. *)
Fixpoint document (doc_id : str) (docs : documents) : option doc_dict :=
  match docs with
  | [] => None
  | (k, d) :: rest => if decide (k = doc_id) then Some d else document doc_id rest
  end.

End VectorDBService.

(** The store after inserting or overwriting a document by id, on typed
    documents. *)
Fixpoint upsert (d : ContextStore.ContextDocument) (ds : list ContextStore.ContextDocument)
    : list ContextStore.ContextDocument :=
  match ds with
  | [] => [d]
  | d' :: rest =>
      if decide (ContextStore.doc_id d' = ContextStore.doc_id d) then d :: rest
      else d' :: upsert d rest
  end.

(** ** app/utils/document_processor.py: the size check *)

Module FileSize.

Section Size.

(** [os.path.getsize(path)]: the size in bytes, or the exception raised
    for a path that cannot be inspected. *)
Variable getsize : str -> outcome Z.

Definition validate_file_size (file_path : str) (max_size_mb : Z) : bool :=
  match getsize file_path with
  | Ok file_size =>
      let max_size_bytes := (max_size_mb * 1024 * 1024)%Z in
      (file_size <=? max_size_bytes)%Z
  | Raise _ => false
  end.

End Size.

End FileSize.

(** ** app/api/routes.py: the upload route *)

Module Upload.

Import Routes DocumentProcessor.

Record FileUploadResponse := {
  message : str;
  uploaded_cv_name : str;
  uploaded_project_name : str;
  saved_cv_path : str;
  saved_project_path : str
}.

Section UploadRoute.

Variable lower : str -> str.

(** [POST /upload] *)
Definition upload_files (cv_file project_report : UploadFile) (session_id : str)
    (s : server) : outcome FileUploadResponse * server :=
  if negb (validate_file_format lower (filename cv_file))
  then (Raise (HTTPException 400 (u "Invalid CV file format. Supported: PDF, DOCX, TXT")), s)
  else if negb (validate_file_format lower (filename project_report))
  then (Raise (HTTPException 400
                 (u "Invalid project report file format. Supported: PDF, DOCX, TXT")), s)
  else if MAX_FILE_SIZE <? N.of_nat (length (body cv_file))
  then (Raise (HTTPException 400 (u "CV file too large (max 10MB)")), s)
  else if MAX_FILE_SIZE <? N.of_nat (length (body project_report))
  then (Raise (HTTPException 400 (u "Project report file too large (max 10MB)")), s)
  else
    let cv_path := UPLOAD_DIR ++ u "/" ++ session_id ++ u "_cv_" ++ filename cv_file in
    let project_path :=
      UPLOAD_DIR ++ u "/" ++ session_id ++ u "_project_" ++ filename project_report in
    (Ok {| message := u "Files uploaded successfully";
           uploaded_cv_name := filename cv_file;
           uploaded_project_name := filename project_report;
           saved_cv_path := cv_path;
           saved_project_path := project_path |},
     {| db := db s; files := {[cv_path]} ∪ ({[project_path]} ∪ files s);
        scheduled := scheduled s |}).

End UploadRoute.

End Upload.

(** Newest first: the order of [ORDER BY created_at DESC]. *)
Definition newer (a b : str * EvaluationTask) : Prop :=
  (created_at (snd b) <= created_at (snd a))%Z.

(** * Further instances *)

Module Scenarios.

(** A service that raises at its first two calls and answers from the
    third on. *)
Definition flaky : service :=
  fun n p t =>
    match n with
    | O | S O => Raise (Exception (u "503 service unavailable"))
    | _ => Instances.well_behaved n p t
    end.


(** Readers that cannot open any file. *)
Definition unreadable : DocumentProcessor.file_kind -> str -> outcome str :=
  fun _ _ => Raise (OSError (u "No such file or directory")).

End Scenarios.

(** * Properties *)

Import Instances.

Local Close Scope N_scope.

(** ** The AI gateway: retries *)

Section GatewayFacts.

Variable svc : service.

Lemma generate_content_async_first (p : prompt) (t : Q) (n : nat) (r : str) :
  svc n p t = Ok r ->
  generate_content_async svc p t n = (Ok r, S n).
Proof.
  intros H. unfold generate_content_async, generate_content_once. simpl.
  rewrite H. reflexivity.
Qed.


End GatewayFacts.

(** C2, as amended.  When the raw call raises on each of its attempts,
    [generate_content_async] makes exactly three raw calls (the counter of
    calls advances by 3) and then raises tenacity's [RetryError] wrapping
    the error of the third call. *)
Theorem generate_content_async_exhausted (svc : service) (p : prompt) (t : Q)
    (err : nat -> exn) (n : nat) :
  (forall k, svc k p t = Raise (err k)) ->
  generate_content_async svc p t n = (Raise (RetryError (err (n + 2)%nat)), (n + 3)%nat).
Proof.
  intros H. unfold generate_content_async, generate_content_once. simpl.
  rewrite !H.
  replace (S (S n)) with (n + 2)%nat by lia.
  replace (S (n + 2)) with (n + 3)%nat by lia.
  reflexivity.
Qed.

Lemma generate_content_async_exhausted_witness :
  (forall k, always_failing k (CVStructurePrompt []) (1 # 10) = Raise (Exception (u "boom")))
  /\ generate_content_async always_failing (CVStructurePrompt []) (1 # 10) 0%nat
     = (Raise (RetryError (Exception (u "boom"))), 3%nat).
Proof.
  split; [reflexivity|].
  apply (generate_content_async_exhausted always_failing (CVStructurePrompt []) (1 # 10)
           (fun _ => Exception (u "boom")) 0%nat).
  reflexivity.
Defined.

(** C2 as stated fails: the error that reaches the caller is not the one
    the raw call raised. *)
Lemma generate_content_async_not_final_error :
  ~ (forall (svc : service) (p : prompt) (t : Q) (err : nat -> exn) (n : nat),
       (forall k, svc k p t = Raise (err k)) ->
       generate_content_async svc p t n = (Raise (err (n + 2)%nat), (n + 3)%nat)).
Proof.
  intros H.
  specialize (H always_failing (CVStructurePrompt []) (1 # 10)
                (fun _ => Exception (u "boom")) 0%nat (fun _ => eq_refl)).
  vm_compute in H. discriminate H.
Qed.

(** ** Whitespace and the JSON lexer *)

Section Lexing.

Import Json.

Lemma isspace_enum (c : N) : isspace c = true -> In c space_chars.
Proof.
  unfold isspace, between, space_chars.
  rewrite !orb_true_iff, !andb_true_iff, !N.leb_le, !N.eqb_eq.
  simpl. lia.
Qed.

(** A property of all whitespace characters is checked on each of them. *)
Lemma isspace_elim (P : N -> Prop) :
  Forall P space_chars -> forall c, isspace c = true -> P c.
Proof.
  intros HP c Hc. rewrite Forall_forall in HP.
  apply HP, list_elem_of_In, isspace_enum, Hc.
Qed.

Ltac each_space :=
  unfold space_chars;
  repeat (apply Forall_cons_2; [intros; cbn; auto|]); apply Forall_nil_2.

Lemma is_ws_isspace (c : N) : is_ws c = true -> isspace c = true.
Proof.
  unfold is_ws, isspace, between.
  rewrite !orb_true_iff, !andb_true_iff, !N.leb_le, !N.eqb_eq. lia.
Qed.

Lemma step_default_space (c : N) :
  isspace c = true ->
  step LDefault c = if is_ws c then Some (LDefault, []) else None.
Proof. revert c. refine (isspace_elim _ _). each_space. Qed.

Lemma step_atom_space (c : N) :
  isspace c = true ->
  forall acc, step (LAtom acc) c = if is_ws c then Some (LDefault, [TAtom acc]) else None.
Proof. revert c. refine (isspace_elim _ _). each_space. Qed.

Lemma step_str_space (c : N) :
  isspace c = true ->
  forall acc hi, step (LStr acc hi) c = None
                 \/ step (LStr acc hi) c = Some (LStr (acc ++ [c]) false, []).
Proof. revert c. refine (isspace_elim _ _). each_space. Qed.

Lemma step_esc_space (c : N) :
  isspace c = true -> forall acc hi, step (LEsc acc hi) c = None.
Proof. revert c. refine (isspace_elim _ _). each_space. Qed.

Lemma step_hex_space (c : N) :
  isspace c = true -> forall acc hi ds, step (LHex acc hi ds) c = None.
Proof. revert c. refine (isspace_elim _ _). each_space. Qed.

Lemma lex_go_cons (st : lstate) (c : N) (s : str) (ts : list token) :
  lex_go st (c :: s) = Some ts ->
  exists st' out ts', step st c = Some (st', out)
                      /\ lex_go st' s = Some ts' /\ ts = out ++ ts'.
Proof.
  simpl. destruct (step st c) as [[st' out]|]; [|discriminate].
  destruct (lex_go st' s) as [ts'|] eqn:E; [|discriminate].
  intros [= <-]. exists st', out, ts'. auto.
Qed.

(** Reading only whitespace up to the end of the input gives what ending
    the input at once gives. *)
Lemma lex_go_spaces (s : str) :
  Forall (fun c => isspace c = true) s ->
  forall st ts, lex_go st s = Some ts -> finish st = Some ts.
Proof.
  induction 1 as [|c s Hc Hs IH]; intros st ts H; [exact H|].
  apply lex_go_cons in H as (st' & out & ts' & Hstep & Hrest & ->).
  destruct st as [|acc|acc hi|acc hi|acc hi ds].
  - rewrite (step_default_space c Hc) in Hstep.
    destruct (is_ws c); [|discriminate]. injection Hstep as <- <-.
    apply IH in Hrest. exact Hrest.
  - rewrite (step_atom_space c Hc) in Hstep.
    destruct (is_ws c); [|discriminate]. injection Hstep as <- <-.
    apply IH in Hrest. simpl in Hrest. injection Hrest as <-. reflexivity.
  - destruct (step_str_space c Hc acc hi) as [E|E]; rewrite E in Hstep; [discriminate|].
    injection Hstep as <- <-. apply IH in Hrest. discriminate Hrest.
  - rewrite (step_esc_space c Hc) in Hstep. discriminate.
  - rewrite (step_hex_space c Hc) in Hstep. discriminate.
Qed.

Lemma rstrip_nil_spaces (s : str) :
  rstrip s = [] -> Forall (fun c => isspace c = true) s.
Proof.
  induction s as [|c s IH]; [constructor|]. simpl.
  destruct (rstrip s) eqn:E; [|discriminate].
  destruct (isspace c) eqn:Ec; [|discriminate].
  intros _. constructor; auto.
Qed.

Lemma lex_go_rstrip (s : str) :
  forall st ts, lex_go st s = Some ts -> lex_go st (rstrip s) = Some ts.
Proof.
  induction s as [|c s IH]; intros st ts H; [exact H|].
  assert (Hc : lex_go st (c :: rstrip s) = Some ts).
  { apply lex_go_cons in H as (st' & out & ts' & Hstep & Hrest & ->).
    simpl. rewrite Hstep, (IH _ _ Hrest). reflexivity. }
  simpl. destruct (rstrip s) as [|x r] eqn:E; [|exact Hc].
  destruct (isspace c) eqn:Ec; [|exact Hc].
  simpl. apply (lex_go_spaces [c]); [|exact Hc].
  constructor; [exact Ec|constructor].
Qed.

Lemma lex_lstrip (s : str) (ts : list token) :
  lex s = Some ts -> lex (lstrip s) = Some ts.
Proof.
  unfold lex. induction s as [|c s IH]; intros H; [exact H|].
  simpl. destruct (isspace c) eqn:Ec; [|exact H].
  apply lex_go_cons in H as (st' & out & ts' & Hstep & Hrest & ->).
  rewrite (step_default_space c Ec) in Hstep.
  destruct (is_ws c); [|discriminate]. injection Hstep as <- <-.
  apply IH, Hrest.
Qed.

Lemma lex_strip (s : str) (ts : list token) :
  lex s = Some ts -> lex (strip s) = Some ts.
Proof.
  intros H. unfold strip, lex. apply lex_go_rstrip. apply (lex_lstrip _ _ H).
Qed.

(** [json.loads] accepts a stripped text when it accepts the text, with
    the same value. *)
Lemma loads_strip (s : str) (v : pyval) :
  loads s = Some v -> loads (strip s) = Some v.
Proof.
  unfold loads. destruct (lex s) as [ts|] eqn:E; [|discriminate].
  rewrite (lex_strip _ _ E). auto.
Qed.

(** A token list that starts with an atom the decoder rejects is rejected. *)
Lemma parse_bad_atom (a : str) (ts : list token) :
  atom_value a = None -> parse (TAtom a :: ts) = None.
Proof.
  intros H. unfold parse.
  replace (2 * length (TAtom a :: ts))%nat with (S (S (2 * length ts))) by (simpl; lia).
  simpl. rewrite H. reflexivity.
Qed.

Lemma lex_go_atom (s : str) :
  forall acc ts, lex_go (LAtom acc) s = Some ts ->
                 exists more rest, ts = TAtom (acc ++ more) :: rest.
Proof.
  induction s as [|c s IH]; intros acc ts H.
  - simpl in H. injection H as <-. exists [], []. rewrite app_nil_r. reflexivity.
  - apply lex_go_cons in H as (st' & out & ts' & Hstep & Hrest & ->).
    simpl in Hstep.
    destruct (is_atom_char c).
    { injection Hstep as <- <-. apply IH in Hrest as (more & rest & ->).
      exists (c :: more), rest. rewrite <- app_assoc. reflexivity. }
    destruct (is_ws c).
    { injection Hstep as <- <-. exists [], ts'. rewrite app_nil_r. reflexivity. }
    destruct (structural c).
    { injection Hstep as <- <-. exists [], (t :: ts'). rewrite app_nil_r. reflexivity. }
    destruct (c =? 34)%N; [|discriminate].
    injection Hstep as <- <-. exists [], ts'. rewrite app_nil_r. reflexivity.
Qed.

(** No JSON text starts with a backtick. *)
Lemma loads_not_backtick (s : str) : loads (96%N :: s) = None.
Proof. reflexivity. Qed.

(** No JSON text starts with the letter j. *)
Lemma loads_not_j (s : str) : loads (106%N :: s) = None.
Proof.
  unfold loads, lex.
  destruct (lex_go LDefault (106%N :: s)) as [ts|] eqn:E; [|reflexivity].
  apply lex_go_cons in E as (st' & out & ts' & Hstep & Hrest & ->).
  cbn in Hstep. injection Hstep as <- <-.
  apply lex_go_atom in Hrest as (more & rest & ->).
  apply parse_bad_atom. reflexivity.
Qed.

(** *** The fuel of the parser *)

Ltac fuel_step g :=
  let H := fresh in
  intros g H; destruct g as [|g]; [lia|]; simpl.

Lemma parse_fuel (f : nat) :
  (forall ts v r, parse_value f ts = Some (v, r) -> enough parse_value ts v r)
  /\ (forall ts acc v r, parse_elements f ts acc = Some (v, r) ->
        enough (fun g ts => parse_elements g ts acc) ts v r)
  /\ (forall ts acc v r, parse_members f ts acc = Some (v, r) ->
        enough (fun g ts => parse_members g ts acc) ts v r).
Proof.
  unfold enough.
  induction f as [|f (IHv & IHe & IHm)]; [repeat split; intros; discriminate|].
  repeat split.
  - intros ts v r H. destruct ts as [|t ts]; [discriminate|].
    destruct t; try discriminate; simpl in H.
    + destruct ts as [|t' ts'].
      { apply IHm in H as (n & Hl & Hn & _). simpl in Hl. lia. }
      destruct t';
        try (apply IHm in H as (n & Hl & Hn & Hg); exists (S n);
             split; [simpl in *; lia|]; split; [lia|];
             fuel_step g; apply Hg; lia).
      injection H as <- <-. exists 2%nat. split; [simpl; lia|]. split; [lia|].
      fuel_step g. reflexivity.
    + destruct ts as [|t' ts'].
      { apply IHe in H as (n & Hl & Hn & _). simpl in Hl. lia. }
      destruct t';
        try (apply IHe in H as (n & Hl & Hn & Hg); exists (S n);
             split; [simpl in *; lia|]; split; [lia|];
             fuel_step g; apply Hg; lia).
      injection H as <- <-. exists 2%nat. split; [simpl; lia|]. split; [lia|].
      fuel_step g. reflexivity.
    + injection H as <- <-. exists 1%nat. split; [simpl; lia|]. split; [lia|].
      fuel_step g. reflexivity.
    + destruct (atom_value a) eqn:E; [|discriminate]. injection H as <- <-.
      exists 1%nat. split; [simpl; lia|]. split; [lia|].
      fuel_step g. rewrite E. reflexivity.
  - intros ts acc v r H. simpl in H.
    destruct (parse_value f ts) as [[v' rest]|] eqn:E; [|discriminate].
    apply IHv in E as (n1 & Hl1 & Hn1 & Hg1).
    destruct rest as [|t rest]; [discriminate|].
    destruct t; try discriminate.
    + injection H as <- <-. exists (S n1). split; [simpl in *; lia|]. split; [lia|].
      fuel_step g. rewrite Hg1 by lia. reflexivity.
    + apply IHe in H as (n2 & Hl2 & Hn2 & Hg2).
      exists (n1 + 1 + n2)%nat. split; [simpl in *; lia|]. split; [lia|].
      fuel_step g. rewrite Hg1 by lia. apply Hg2. lia.
  - intros ts acc v r H. simpl in H.
    destruct ts as [|t ts]; [discriminate|]. destruct t; try discriminate.
    destruct ts as [|t ts]; [discriminate|]. destruct t; try discriminate.
    destruct (parse_value f ts) as [[v' rest]|] eqn:E; [|discriminate].
    apply IHv in E as (n1 & Hl1 & Hn1 & Hg1).
    destruct rest as [|t rest]; [discriminate|].
    destruct t; try discriminate.
    + injection H as <- <-. exists (3 + n1)%nat. split; [simpl in *; lia|]. split; [lia|].
      fuel_step g. rewrite Hg1 by lia. reflexivity.
    + apply IHm in H as (n2 & Hl2 & Hn2 & Hg2).
      exists (3 + n1 + n2)%nat. split; [simpl in *; lia|]. split; [lia|].
      fuel_step g. rewrite Hg1 by lia. apply Hg2. lia.
Qed.

(** The fuel [parse] gives to the parser is enough: a token list that
    parses with some fuel parses with that of [parse]. *)
Lemma parse_complete (f : nat) (ts : list token) (v : pyval) :
  parse_value f ts = Some (v, []) -> parse ts = Some v.
Proof.
  intros H. destruct (parse_fuel f) as (Hv & _ & _).
  apply Hv in H as (n & Hl & _ & Hg). unfold parse.
  rewrite Hg; [reflexivity|]. simpl in Hl. lia.
Qed.

End Lexing.

(** ** Code fences *)

Lemma rstrip_snoc (a : str) (x : N) :
  isspace x = false -> rstrip (a ++ [x]) = a ++ [x].
Proof.
  intros Hx. induction a as [|c a IH]; simpl.
  - rewrite Hx. reflexivity.
  - rewrite IH. destruct (a ++ [x]) eqn:E; [|reflexivity].
    destruct a; discriminate E.
Qed.

Lemma strip_guarded (x y : N) (m : str) :
  isspace x = false -> isspace y = false ->
  strip (x :: m ++ [y]) = x :: m ++ [y].
Proof.
  intros Hx Hy. unfold strip. simpl lstrip. rewrite Hx.
  apply (rstrip_snoc (x :: m) y Hy).
Qed.

Lemma strip_fenced (f p : str) :
  strip (96%N :: f ++ p ++ u "```") = 96%N :: f ++ p ++ u "```".
Proof.
  replace (96%N :: f ++ p ++ u "```") with (96%N :: (f ++ p ++ [96; 96]%N) ++ [96%N]).
  - apply strip_guarded; reflexivity.
  - rewrite <- !app_assoc. reflexivity.
Qed.

Lemma slice_fenced (f p : str) :
  slice_to_end (length f) 3 (f ++ p ++ u "```") = p.
Proof.
  unfold slice_to_end.
  replace (length (f ++ p ++ u "```") - 3)%nat with (length (f ++ p)).
  - rewrite (app_assoc f p), take_app_length. apply drop_app_length.
  - rewrite !length_app. simpl. lia.
Qed.

Lemma startswith_app (f s : str) : startswith (f ++ s) f = true.
Proof. unfold startswith. rewrite take_app_length. apply bool_decide_eq_true_2. reflexivity. Qed.

Lemma clean_response_json_fence (p : str) :
  clean_response (u "```json" ++ p ++ u "```") = p.
Proof.
  unfold clean_response.
  change (u "```json" ++ p ++ u "```")
    with (96%N :: [96; 96; 106; 115; 111; 110]%N ++ p ++ u "```").
  rewrite strip_fenced.
  change (96%N :: [96; 96; 106; 115; 111; 110]%N ++ p ++ u "```")
    with (u "```json" ++ p ++ u "```").
  rewrite (startswith_app (u "```json") (p ++ u "```")).
  apply (slice_fenced (u "```json") p).
Qed.

(** Without the [json] tag the first test fails as soon as the payload does
    not start with the letter j. *)
Lemma clean_response_plain_fence (c : N) (p : str) :
  c <> 106%N ->
  clean_response (u "```" ++ (c :: p) ++ u "```") = c :: p.
Proof.
  intros Hc. unfold clean_response.
  change (u "```" ++ (c :: p) ++ u "```") with (96%N :: [96; 96]%N ++ (c :: p) ++ u "```").
  rewrite strip_fenced.
  change (96%N :: [96; 96]%N ++ (c :: p) ++ u "```") with (u "```" ++ (c :: p) ++ u "```").
  replace (startswith (u "```" ++ (c :: p) ++ u "```") (u "```json")) with false.
  - rewrite (startswith_app (u "```") ((c :: p) ++ u "```")).
    apply (slice_fenced (u "```") (c :: p)).
  - symmetry. apply bool_decide_eq_false_2. cbn. intros [= E]. contradiction.
Qed.

(** A text that starts with no backtick is only stripped. *)
Lemma clean_response_unfenced (r : str) :
  head (strip r) <> Some 96%N -> clean_response r = strip r.
Proof.
  intros H. unfold clean_response.
  destruct (strip r) as [|c s]; [reflexivity|].
  assert (Hc : c <> 96%N) by (intros ->; apply H; reflexivity).
  unfold startswith.
  rewrite !bool_decide_eq_false_2 by (cbn; intros [= E]; contradiction).
  reflexivity.
Qed.

(** What the cleaning and the decoder give for an accepted payload, bare
    and in either fence. *)
Lemma json_loads_fenced (p : str) (v : pyval) :
  Json.loads p = Some v ->
  json_loads (clean_response (u "```json" ++ p ++ u "```")) = Ok v
  /\ json_loads (clean_response (u "```" ++ p ++ u "```")) = Ok v
  /\ json_loads (clean_response p) = Ok v.
Proof.
  intros Hp.
  assert (Hs : Json.loads (strip p) = Some v) by (apply loads_strip, Hp).
  repeat split.
  - rewrite clean_response_json_fence. unfold json_loads. rewrite Hp. reflexivity.
  - destruct p as [|c p]; [discriminate Hp|].
    rewrite clean_response_plain_fence.
    + unfold json_loads. rewrite Hp. reflexivity.
    + intros ->. rewrite loads_not_j in Hp. discriminate.
  - rewrite clean_response_unfenced.
    + unfold json_loads. rewrite Hs. reflexivity.
    + destruct (strip p) as [|c s]; [discriminate|].
      intros [= ->]. rewrite loads_not_backtick in Hs. discriminate.
Qed.

(** C7.  A payload that [json.loads] accepts parses to the same value
    whether the response carries it bare, between [```json] and [```], or
    between [```] and [```]. *)
Theorem fenced_response_parses_same (p : str) (v : pyval) :
  Json.loads p = Some v ->
  json_loads (clean_response (u "```json" ++ p ++ u "```")) = json_loads (clean_response p)
  /\ json_loads (clean_response (u "```" ++ p ++ u "```")) = json_loads (clean_response p)
  /\ json_loads (clean_response p) = Ok v.
Proof.
  intros Hp. destruct (json_loads_fenced p v Hp) as (H1 & H2 & H3).
  rewrite H1, H2, H3. auto.
Qed.

Lemma fenced_response_parses_same_witness :
  Json.loads (payload_example) = Some (PyDict [(u "a", PyInt 1)])
  /\ json_loads (clean_response (u "```json" ++ payload_example ++ u "```"))
     = Ok (PyDict [(u "a", PyInt 1)]).
Proof.
  split; [reflexivity|].
  destruct (fenced_response_parses_same payload_example (PyDict [(u "a", PyInt 1)]) eq_refl)
    as (H1 & _ & H3).
  rewrite H1. exact H3.
Defined.

(** ** The context store *)

Section StoreFacts.

Import VectorDB ContextStore.

Lemma insert_desc_perm (x : retrieved_doc) (l : list retrieved_doc) :
  insert_desc x l ≡ₚ x :: l.
Proof.
  induction l as [|y l IH]; simpl; [reflexivity|].
  destruct (score y <=? score x)%nat; [reflexivity|].
  rewrite IH. apply Permutation_swap.
Qed.

Lemma sort_desc_perm (l : list retrieved_doc) : sort_desc l ≡ₚ l.
Proof.
  induction l as [|x l IH]; simpl; [reflexivity|].
  rewrite insert_desc_perm, IH. reflexivity.
Qed.

Lemma insert_desc_sorted (x : retrieved_doc) (l : list retrieved_doc) :
  StronglySorted score_ge l -> StronglySorted score_ge (insert_desc x l).
Proof.
  induction 1 as [|y l Hl IH Hy]; simpl.
  - repeat constructor.
  - destruct (score y <=? score x)%nat eqn:E.
    + apply Nat.leb_le in E. constructor; [constructor; assumption|].
      constructor; [exact E|].
      eapply Forall_impl; [exact Hy|]. unfold score_ge. intros z Hz. simpl in Hz. lia.
    + apply Nat.leb_gt in E. constructor; [exact IH|].
      rewrite insert_desc_perm. constructor; [unfold score_ge; lia|exact Hy].
Qed.

Lemma sort_desc_sorted (l : list retrieved_doc) : StronglySorted score_ge (sort_desc l).
Proof.
  induction l as [|x l IH]; simpl; [constructor|].
  apply insert_desc_sorted, IH.
Qed.

(** Stability: among the documents of one score the order is unchanged. *)
Lemma insert_desc_stable (k : nat) (x : retrieved_doc) (l : list retrieved_doc) :
  filter (fun r => score r = k) (insert_desc x l) = filter (fun r => score r = k) (x :: l).
Proof.
  induction l as [|y l IH]; simpl; [reflexivity|].
  destruct (score y <=? score x)%nat eqn:E; [reflexivity|].
  apply Nat.leb_gt in E.
  rewrite (filter_cons _ y), IH, !(filter_cons _ x), (filter_cons _ y).
  repeat case_decide; try reflexivity. lia.
Qed.

Lemma sort_desc_stable (k : nat) (l : list retrieved_doc) :
  filter (fun r => score r = k) (sort_desc l) = filter (fun r => score r = k) l.
Proof.
  induction l as [|x l IH]; simpl; [reflexivity|].
  rewrite insert_desc_stable, !filter_cons, IH. reflexivity.
Qed.

Lemma length_slice_upto {A} (n : Z) (l : list A) :
  (0 <= n)%Z -> (Z.of_nat (length (slice_upto n l)) <= n)%Z.
Proof.
  intros Hn. unfold slice_upto.
  destruct (Z.leb_spec 0 n); [|lia].
  rewrite length_take. lia.
Qed.

Variable lower : str -> str.

Lemma item_content (d : ContextDocument) : item (to_dict d) "content" = Ok (PyStr (doc_content d)).
Proof. reflexivity. Qed.

Lemma item_type (d : ContextDocument) : item (to_dict d) "type" = Ok (PyStr (doc_type d)).
Proof. reflexivity. Qed.

Lemma item_category (d : ContextDocument) :
  item (to_dict d) "category" = Ok (PyStr (doc_category d)).
Proof. reflexivity. Qed.

Lemma skip_type_passes (type_filter : option str) (d : ContextDocument) :
  (if truthy type_filter
   then rbind (item (to_dict d) "type") (fun t => Ok (ne_str t (default [] type_filter)))
   else Ok false)
  = Ok (negb (type_passes type_filter d)).
Proof.
  rewrite item_type. destruct type_filter as [[|c t]|]; reflexivity.
Qed.

(** On a store of well-formed documents the loop raises nothing and
    collects the candidates. *)
Lemma scan_store_of (ds : list ContextDocument) (query : str) (type_filter : option str) :
  scan lower (store_of ds) (split (lower query)) type_filter
  = Ok (candidates lower query type_filter ds).
Proof.
  unfold candidates.
  induction ds as [|d ds IH]; [reflexivity|].
  change (store_of (d :: ds)) with ((doc_id d, to_dict d) :: store_of ds).
  cbn [scan]. rewrite skip_type_passes, item_content, item_type, item_category, IH.
  cbn [rbind text_of].
  change (keyword_score (split (lower query)) (lower (doc_content d)))
    with (relevance lower query d).
  rewrite filter_cons.
  destruct (type_passes type_filter d); cbn [negb].
  - rewrite andb_true_r.
    destruct (0 <? relevance lower query d)%nat eqn:E.
    + rewrite decide_True by reflexivity. reflexivity.
    + rewrite decide_False by discriminate. reflexivity.
  - rewrite andb_false_r. rewrite decide_False by discriminate. reflexivity.
Qed.

Lemma keyword_score_term (query_words : list str) (content_lower : str) :
  (0 < keyword_score query_words content_lower)%nat ->
  exists term, term ∈ query_words /\ contains content_lower term = true.
Proof.
  unfold keyword_score. intros H.
  destruct (filter (fun word => contains content_lower word = true) query_words)
    as [|term l] eqn:E; [simpl in H; lia|].
  assert (Hin : term ∈ filter (fun word => contains content_lower word = true) query_words)
    by (rewrite E; left).
  apply list_elem_of_filter in Hin as [Ht Hin]. eauto.
Qed.

Lemma candidates_have_term (query : str) (type_filter : option str)
    (ds : list ContextDocument) :
  Forall (fun r => exists term, term ∈ split (lower query)
                                /\ contains (lower (content r)) term = true)
    (candidates lower query type_filter ds).
Proof.
  unfold candidates. apply Forall_forall. intros r Hr.
  apply list_elem_of_fmap in Hr as (d & -> & Hd).
  apply list_elem_of_filter in Hd as [Hd _].
  apply andb_true_iff in Hd as [Hd _]. apply Nat.ltb_lt in Hd.
  apply (keyword_score_term _ _ Hd).
Qed.

End StoreFacts.

(** A store built by [add_document] from a store of well-formed documents
    is one. *)
Lemma add_document_store_of (content doc_id doc_type category : str)
    (ds : list ContextStore.ContextDocument) :
  exists ds',
    VectorDB.add_document content doc_id doc_type category (ContextStore.store_of ds)
    = ContextStore.store_of ds'.
Proof.
  unfold VectorDB.add_document.
  induction ds as [|d ds (ds' & IH)]; simpl.
  - exists [ContextStore.Build_ContextDocument doc_id content doc_type category]. reflexivity.
  - destruct (decide (ContextStore.doc_id d = doc_id)).
    + exists (ContextStore.Build_ContextDocument doc_id content doc_type category :: ds).
      reflexivity.
    + exists (d :: ds'). simpl. rewrite IH. reflexivity.
Qed.

Lemma default_documents_typed :
  VectorDB.default_documents = ContextStore.store_of ContextStore.default_corpus.
Proof. vm_compute. reflexivity. Qed.


Section RetrievalClaims.

Import VectorDB ContextStore.

(** C6, as amended.  On a store of well-formed documents
    [retrieve_context] returns a slice of [ranked], where [ranked] holds
    exactly the documents of relevance above 0 that pass the type filter (an
    absent or empty filter passes every type), in descending order of
    relevance, documents of equal relevance in insertion order.  For a limit
    of 0 or more the slice is the first [limit] documents, so at most
    [limit]; for a negative limit it is all but the last [-limit].  Every
    returned document contains at least one query term. *)
Theorem retrieve_context_ranked (lower : str -> str) (ds : list ContextDocument)
    (query : str) (type_filter : option str) (limit : Z) :
  exists ranked,
    ranked ≡ₚ candidates lower query type_filter ds
    /\ StronglySorted score_ge ranked
    /\ (forall k, filter (fun r => score r = k) ranked
                  = filter (fun r => score r = k) (candidates lower query type_filter ds))
    /\ retrieve_context lower (store_of ds) query type_filter limit
       = Ok (slice_upto limit ranked)
    /\ ((0 <= limit)%Z ->
        slice_upto limit ranked = take (Z.to_nat limit) ranked
        /\ (Z.of_nat (length (slice_upto limit ranked)) <= limit)%Z)
    /\ ((limit < 0)%Z ->
        slice_upto limit ranked = take (length ranked - Z.to_nat (- limit)) ranked)
    /\ Forall (fun r => exists term, term ∈ split (lower query)
                                     /\ contains (lower (content r)) term = true)
         (slice_upto limit ranked).
Proof.
  exists (sort_desc (candidates lower query type_filter ds)).
  split; [apply sort_desc_perm|].
  split; [apply sort_desc_sorted|].
  split; [intros k; apply sort_desc_stable|].
  split.
  { unfold retrieve_context, retrieve_body. rewrite scan_store_of. reflexivity. }
  split.
  { intros Hl. split; [|apply length_slice_upto, Hl].
    unfold slice_upto. destruct (Z.leb_spec 0 limit); [reflexivity|lia]. }
  split.
  { intros Hl. unfold slice_upto. destruct (Z.leb_spec 0 limit); [lia|].
    f_equal. lia. }
  assert (Hall : Forall (fun r => exists term, term ∈ split (lower query)
                                   /\ contains (lower (content r)) term = true)
                   (sort_desc (candidates lower query type_filter ds))).
  { rewrite sort_desc_perm. apply candidates_have_term. }
  unfold slice_upto. destruct (0 <=? limit)%Z; apply Forall_take, Hall.
Qed.

Lemma retrieve_context_ranked_witness :
  exists l,
    retrieve_context lower_latin (store_of default_corpus)
      (u "project evaluation rubric code quality") (Some (u "scoring_rubric")) 2
    = Ok l
    /\ (Z.of_nat (length l) <= 2)%Z.
Proof.
  destruct (retrieve_context_ranked lower_latin default_corpus
              (u "project evaluation rubric code quality") (Some (u "scoring_rubric")) 2)
    as (ranked & _ & _ & _ & Hr & Hl & _).
  exists (slice_upto 2 ranked). split; [exact Hr|].
  apply Hl. lia.
Defined.

(** The retrieval of the specification's example, evaluated: the project
    rubric (5 of the 5 terms) before the CV rubric (3 terms). *)
Lemma retrieve_context_example :
  option_map (map score)
    (match retrieve_context lower_latin default_documents
             (u "project evaluation rubric code quality") (Some (u "scoring_rubric")) 2
     with Ok l => Some l | Raise _ => None end)
  = Some [5; 3]%nat.
Proof. vm_compute. reflexivity. Qed.

(** C6 as stated fails for a negative limit, where "at most [limit]
    documents" cannot hold, and for the empty string as filter, which
    filters nothing. *)
Lemma retrieve_context_limit_and_filter_counterexample :
  (exists r,
      retrieve_context lower_latin default_documents
        (u "project evaluation rubric code quality") (Some (u "scoring_rubric")) (-1)
      = Ok [r]
      /\ ~ (Z.of_nat (length [r]) <= -1)%Z)
  /\ (exists r l,
        retrieve_context lower_latin default_documents
          (u "backend developer requirements") (Some []) 1
        = Ok (r :: l)
        /\ metadata_type r = PyStr (u "job_description")
        /\ type_matches (Some []) (nth 0 default_corpus
                                      {| doc_id := []; doc_content := [];
                                         doc_type := []; doc_category := [] |}) = false).
Proof.
  split.
  - eexists. split; [vm_compute; reflexivity|]. simpl. lia.
  - eexists. eexists. split; [vm_compute; reflexivity|]. split; reflexivity.
Qed.

(** C10.  [retrieve_context] returns on every store, query, filter and
    limit; when the computation inside its [try] raises, what it returns is
    the empty list. *)
Theorem retrieve_context_never_raises (lower : str -> str) (docs : documents)
    (query : str) (context_type : option str) (n_results : Z) :
  (exists l, retrieve_context lower docs query context_type n_results = Ok l)
  /\ (forall e, retrieve_body lower docs query context_type n_results = Raise e ->
                retrieve_context lower docs query context_type n_results = Ok [])
  /\ (forall (A : Type) (k : list retrieved_doc -> M A) (calls : nat),
        exists l, (x <- lift (retrieve_context lower docs query context_type n_results) ;; k x)
                    calls = k l calls).
Proof.
  unfold retrieve_context.
  destruct (retrieve_body lower docs query context_type n_results) as [l|e'] eqn:E.
  - split; [eauto|]. split; [discriminate|]. intros A k calls. exists l. reflexivity.
  - split; [eauto|]. split; [reflexivity|]. intros A k calls. exists []. reflexivity.
Qed.

(** The computation inside the [try] does raise on some stores. *)
Lemma retrieve_body_can_raise :
  retrieve_body lower_latin broken_documents (u "rubric") None 3
  = Raise (KeyError (u "content"))
  /\ retrieve_context lower_latin broken_documents (u "rubric") None 3 = Ok [].
Proof. split; reflexivity. Qed.

End RetrievalClaims.

(** ** The steps of the gateway *)

Lemma bind_ok {A B} (m : M A) (k : A -> M B) (n n' : nat) (a : A) :
  m n = (Ok a, n') -> bind m k n = k a n'.
Proof. intros H. unfold bind. rewrite H. reflexivity. Qed.

Lemma bind_raise {A B} (m : M A) (k : A -> M B) (n n' : nat) (e : exn) :
  m n = (Raise e, n') -> bind m k n = (Raise e, n').
Proof. intros H. unfold bind. rewrite H. reflexivity. Qed.

Lemma bind_lift_ok {A B} (a : A) (k : A -> M B) (n : nat) :
  bind (lift (Ok a)) k n = k a n.
Proof. reflexivity. Qed.



Section StepFacts.

Import Lifecycle.

Variable svc : service.






End StepFacts.

(** Two services whose first answers to the extraction prompt carry the
    same accepted payload, one in a fence and one bare, give the same
    extraction. *)
Lemma extract_cv_structure_fenced (svc1 svc2 : service) (cv_text p : str) (v : pyval)
    (n : nat) :
  Json.loads p = Some v ->
  svc1 n (CVStructurePrompt cv_text) (1 # 10) = Ok (u "```json" ++ p ++ u "```") ->
  svc2 n (CVStructurePrompt cv_text) (1 # 10) = Ok p ->
  extract_cv_structure svc1 cv_text n = extract_cv_structure svc2 cv_text n.
Proof.
  intros Hp H1 H2. destruct (json_loads_fenced p v Hp) as (E1 & _ & E3).
  unfold extract_cv_structure, try_except.
  rewrite (bind_ok _ _ _ _ _ (generate_content_async_first svc1 _ _ _ _ H1)).
  rewrite (bind_ok _ _ _ _ _ (generate_content_async_first svc2 _ _ _ _ H2)).
  rewrite E1, E3. reflexivity.
Qed.



(** ** The task lifecycle *)

Section LifecycleFacts.

Import Lifecycle EvaluationPipeline DocumentProcessor VectorDB.

Variable lower : str -> str.
Variable svc : service.
Variable docs : documents.
Variable reader : file_kind -> str -> outcome str.


Lemma run_evaluation_failed (draw : option failure_choice) (calls : nat)
    (task_id : str) (db : table) (t : EvaluationTask) (e : exn) :
  db !! task_id = Some t ->
  evaluate lower svc docs reader draw calls task_id (alter set_processing task_id db)
  = Raise e ->
  final_row task_id (run_evaluation lower svc docs reader draw calls task_id db)
  = Some (set_failed (str_exn e) (set_processing t)).
Proof.
  intros Ht He. unfold run_evaluation, final_row. rewrite He. cbn.
  rewrite !lookup_alter_eq, Ht. reflexivity.
Qed.

(** Without a simulated failure, [evaluate] is the pipeline on the row
    just marked as processing. *)
Lemma evaluate_pipeline (calls : nat) (task_id : str) (db : table) (t : EvaluationTask) :
  db !! task_id = Some t ->
  evaluate lower svc docs reader None calls task_id (alter set_processing task_id db)
  = fst (_execute_pipeline lower svc docs reader (set_processing t) calls).
Proof.
  intros Ht. unfold evaluate. rewrite lookup_alter_eq, Ht. reflexivity.
Qed.


End LifecycleFacts.

(** The four shapes of a row that satisfy the invariant. *)
Lemma task_invariant_shape (x : EvaluationTask) :
  match status x, result x, error_message x with
  | QUEUED, None, None | PROCESSING, None, None
  | COMPLETED, Some _, None | FAILED, None, Some _ => True
  | _, _, _ => False
  end ->
  Lifecycle.task_invariant x.
Proof.
  unfold Lifecycle.task_invariant.
  destruct (status x), (result x), (error_message x); intros H; try destruct H;
    repeat split; try discriminate; eauto;
    try (intros [y Hy]; discriminate Hy);
    try (intros [[y Hy] _]; discriminate Hy);
    try (intros [_ [y Hy]]; discriminate Hy).
Qed.

(** C1.  A run of [run_evaluation] on a task that is queued, with neither
    result nor error, commits two states: the task is seen as Queued, then
    Processing, then Completed or Failed, each step a transition of the
    state machine, and in each of the three states the result is set iff the
    status is Completed, the error is set iff the status is Failed, and they
    are never both set. *)
Theorem run_evaluation_lifecycle (lower : str -> str) (svc : service)
    (docs : VectorDB.documents)
    (reader : DocumentProcessor.file_kind -> str -> outcome str)
    (draw : option EvaluationPipeline.failure_choice) (calls : nat)
    (task_id : str) (db : table) (t : EvaluationTask) :
  db !! task_id = Some t ->
  status t = QUEUED -> result t = None -> error_message t = None ->
  exists t1 t2,
    (fun d : table => d !! task_id)
      <$> (db :: fst (EvaluationPipeline.run_evaluation lower svc docs reader draw calls
                        task_id db))
    = [Some t; Some t1; Some t2]
    /\ Lifecycle.transition (status t) (status t1)
    /\ Lifecycle.transition (status t1) (status t2)
    /\ Lifecycle.task_invariant t
    /\ Lifecycle.task_invariant t1
    /\ Lifecycle.task_invariant t2.
Proof.
  intros Ht Hs Hr He.
  unfold EvaluationPipeline.run_evaluation.
  destruct (EvaluationPipeline.evaluate lower svc docs reader draw calls task_id
              (alter EvaluationPipeline.set_processing task_id db)) as [res|e].
  - exists (EvaluationPipeline.set_processing t),
           (EvaluationPipeline.set_completed res (EvaluationPipeline.set_processing t)).
    split; [cbn; rewrite !lookup_alter_eq, Ht; reflexivity|].
    rewrite Hs. cbn.
    repeat split; try constructor;
      apply task_invariant_shape; cbn; rewrite ?Hs, ?Hr, ?He; exact I.
  - exists (EvaluationPipeline.set_processing t),
           (EvaluationPipeline.set_failed (str_exn e) (EvaluationPipeline.set_processing t)).
    split; [cbn; rewrite !lookup_alter_eq, Ht; reflexivity|].
    rewrite Hs. cbn.
    repeat split; try constructor;
      apply task_invariant_shape; cbn; rewrite ?Hs, ?Hr, ?He; exact I.
Qed.

Lemma run_evaluation_lifecycle_witness :
  exists t1 t2,
    (fun d : table => d !! task1)
      <$> (table1 :: fst (EvaluationPipeline.run_evaluation lower_latin well_behaved
                            VectorDB.default_documents readable None 0 task1 table1))
    = [Some queued1; Some t1; Some t2]
    /\ Lifecycle.transition (status queued1) (status t1)
    /\ Lifecycle.transition (status t1) (status t2)
    /\ Lifecycle.task_invariant queued1
    /\ Lifecycle.task_invariant t1
    /\ Lifecycle.task_invariant t2.
Proof.
  apply (run_evaluation_lifecycle lower_latin well_behaved VectorDB.default_documents
           readable None 0 task1 table1 queued1); reflexivity.
Defined.

(** ** Fallbacks in the orchestrator *)

Section OrchestratorFacts.

Import Lifecycle EvaluationPipeline DocumentProcessor VectorDB.

Variable lower : str -> str.
Variable svc : service.
Variable docs : documents.
Variable reader : file_kind -> str -> outcome str.




End OrchestratorFacts.







(** ** Submission *)

Section SubmissionFacts.

Import Routes.

(** [POST /evaluate-direct] answers an unsupported format or an oversized
    file with a 400 response and leaves the server as it was. *)
Lemma evaluate_files_direct_rejects (lower : str -> str) (cv_file project_report : UploadFile)
    (description : option str) (session_id new_id : str) (now : Z) (s : server) :
  DocumentProcessor.validate_file_format lower (filename cv_file) = false
  \/ DocumentProcessor.validate_file_format lower (filename project_report) = false
  \/ (MAX_FILE_SIZE < N.of_nat (length (body cv_file)))%N
  \/ (MAX_FILE_SIZE < N.of_nat (length (body project_report)))%N ->
  exists detail,
    evaluate_files_direct lower cv_file project_report description session_id new_id now s
    = (Raise (HTTPException 400 detail), s).
Proof.
  intros H. unfold evaluate_files_direct.
  destruct (DocumentProcessor.validate_file_format lower (filename cv_file)); cbn [negb];
    [|eauto].
  destruct (DocumentProcessor.validate_file_format lower (filename project_report));
    cbn [negb]; [|eauto].
  destruct (N.ltb_spec MAX_FILE_SIZE (N.of_nat (length (body cv_file)))); [eauto|].
  destruct (N.ltb_spec MAX_FILE_SIZE (N.of_nat (length (body project_report)))); [eauto|].
  destruct H as [H|[H|[H|H]]]; try discriminate; lia.
Qed.

(** [POST /evaluate] answers a missing file with a 404 response and leaves
    the server as it was. *)
Lemma create_evaluation_task_missing_file (cv_path project_path : str)
    (description : option str) (new_id : str) (now : Z) (s : server) :
  cv_path ∉ files s \/ project_path ∉ files s ->
  exists detail,
    create_evaluation_task cv_path project_path description new_id now s
    = (Raise (HTTPException 404 detail), s).
Proof.
  intros H. unfold create_evaluation_task.
  destruct (decide (cv_path ∈ files s)) as [Hc|Hc].
  - rewrite (bool_decide_eq_true_2 _ Hc). cbn [negb].
    destruct (decide (project_path ∈ files s)) as [Hp|Hp].
    + destruct H; contradiction.
    + rewrite (bool_decide_eq_false_2 _ Hp). eauto.
  - rewrite (bool_decide_eq_false_2 _ Hc). eauto.
Qed.

End SubmissionFacts.

(** A task a submission route creates is queued, without result and
    error, and is scheduled. *)
Lemma add_and_schedule_queued (failure new_id cv_path project_path description : str)
    (now : Z) (s s' : Routes.server) (r : Routes.TaskResponse) :
  Routes.add_and_schedule failure new_id
    (Routes.queued_task cv_path project_path description now) s = (Ok r, s') ->
  exists t, Routes.db s' !! new_id = Some t
            /\ status t = QUEUED /\ result t = None /\ error_message t = None
            /\ new_id ∈ Routes.scheduled s'.
Proof.
  unfold Routes.add_and_schedule. destruct (Routes.db s !! new_id); [discriminate|].
  intros [= <- <-]. cbn. rewrite lookup_insert_eq. eexists. split; [reflexivity|].
  repeat split. apply elem_of_app. right. left.
Qed.

(** C8 at the failing input.  [POST /evaluate] with the path of an existing
    file of unsupported format creates a queued task and schedules it; its
    run ends Failed, without a simulated failure with the message of
    [extract_text_from_file].  [POST /evaluate-direct] rejects a file of the
    same name. *)
Theorem create_evaluation_task_accepts_unsupported_format :
  exists s1,
    Routes.create_evaluation_task (u "uploads/cv.exe") (u "uploads/report.txt") None
      task1 100 server0
    = (Ok {| Routes.response_id := task1; Routes.response_status := QUEUED |}, s1)
    /\ option_map status (Routes.db s1 !! task1) = Some QUEUED
    /\ Routes.scheduled s1 = [task1]
    /\ (forall svc draw calls,
          option_map status
            (Lifecycle.final_row task1
               (EvaluationPipeline.run_evaluation lower_latin svc VectorDB.default_documents
                  readable draw calls task1 (Routes.db s1)))
          = Some FAILED)
    /\ (forall svc calls,
          option_map error_message
            (Lifecycle.final_row task1
               (EvaluationPipeline.run_evaluation lower_latin svc VectorDB.default_documents
                  readable None calls task1 (Routes.db s1)))
          = Some (Some (u "Unsupported file format: .exe")))
    /\ Routes.evaluate_files_direct lower_latin
         {| Routes.filename := u "cv.exe"; Routes.body := [] |}
         {| Routes.filename := u "report.txt"; Routes.body := [] |}
         None (u "s1") task1 100 server0
       = (Raise (HTTPException 400 (u "Invalid CV file format. Supported: PDF, DOCX, TXT")),
          server0).
Proof.
  eexists. split; [vm_compute; reflexivity|].
  split; [vm_compute; reflexivity|].
  split; [reflexivity|].
  split; [intros svc [[]|] calls; vm_compute; reflexivity|].
  split; [intros svc calls; vm_compute; reflexivity|].
  vm_compute. reflexivity.
Qed.

(** ** Deletion *)

Section DeletionFacts.

Import Routes.

Lemma insert_newest_perm (x : str * EvaluationTask) (l : list (str * EvaluationTask)) :
  insert_newest x l ≡ₚ x :: l.
Proof.
  induction l as [|y l IH]; simpl; [reflexivity|].
  destruct (created_at (snd y) <=? created_at (snd x))%Z; [reflexivity|].
  rewrite IH. apply Permutation_swap.
Qed.

Lemma newest_first_perm (l : list (str * EvaluationTask)) : newest_first l ≡ₚ l.
Proof.
  induction l as [|x l IH]; simpl; [reflexivity|].
  rewrite insert_newest_perm, IH. reflexivity.
Qed.

Lemma page_subseteq {A} (offset limit : Z) (l : list A) : page offset limit l ⊆ l.
Proof.
  unfold page. destruct (limit <? 0)%Z.
  - apply subseteq_drop.
  - etransitivity; [apply subseteq_take|apply subseteq_drop].
Qed.

(** Only the ids of rows of the table are listed. *)
Lemma list_tasks_ids (include_results : bool) (limit offset : Z) (t : table) (id : str) :
  id ∈ map entry_id (list_tasks include_results limit offset t) -> is_Some (t !! id).
Proof.
  unfold list_tasks. rewrite map_map. cbn [list_entry entry_id].
  intros H. apply list_elem_of_fmap in H as ([k row] & -> & H).
  apply page_subseteq in H. rewrite newest_first_perm in H.
  apply elem_of_map_to_list in H. cbn. eauto.
Qed.

Lemma remove_task_files_subseteq (remove_error : str -> option exn)
    (task : EvaluationTask) (fs : gset str) :
  (remove_task_files remove_error task fs) ⊆ fs.
Proof.
  unfold remove_task_files, remove_if_exists.
  repeat (case_bool_decide || destruct (remove_error _)); set_solver.
Qed.

Lemma remove_task_files_removed (remove_error : str -> option exn)
    (task : EvaluationTask) (fs : gset str) :
  remove_error (cv_file_path task) = None ->
  remove_error (project_report_path task) = None ->
  (cv_file_path task ∉ remove_task_files remove_error task fs)
  /\ (project_report_path task ∉ remove_task_files remove_error task fs).
Proof.
  intros H1 H2. unfold remove_task_files, remove_if_exists. rewrite H1, H2.
  repeat case_bool_decide; set_solver.
Qed.

End DeletionFacts.

(** C9.  Deleting an existing task answers with success whatever happens
    to the files; afterwards the task is in no [get] and no [list] result;
    the other tasks are untouched; no file appears; and when no removal
    raises, neither input file of the task is left in storage. *)
Theorem delete_task_removes (remove_error : str -> option exn) (task_id : str)
    (s : Routes.server) (task : EvaluationTask) :
  Routes.db s !! task_id = Some task ->
  exists s',
    Routes.delete_task remove_error task_id s
    = (Ok (u "Task " ++ task_id ++ u " deleted successfully"), s')
    /\ Routes.db s' !! task_id = None
    /\ Routes.get_evaluation_result task_id (Routes.db s')
       = Raise (HTTPException 404 (u "Task not found"))
    /\ (forall include_results limit offset,
          task_id ∉ map Routes.entry_id
                      (Routes.list_tasks include_results limit offset (Routes.db s')))
    /\ (forall other, other <> task_id -> Routes.db s' !! other = Routes.db s !! other)
    /\ (Routes.files s') ⊆ (Routes.files s)
    /\ (remove_error (cv_file_path task) = None ->
        remove_error (project_report_path task) = None ->
        (cv_file_path task ∉ Routes.files s')
        /\ (project_report_path task ∉ Routes.files s')).
Proof.
  intros Ht. unfold Routes.delete_task. rewrite Ht. eexists. split; [reflexivity|].
  cbn [Routes.db Routes.files].
  split; [apply lookup_delete_eq|].
  split; [unfold Routes.get_evaluation_result; rewrite lookup_delete_eq; reflexivity|].
  split.
  { intros inc limit offset H. apply list_tasks_ids in H as [x Hx].
    rewrite lookup_delete_eq in Hx. discriminate. }
  split; [intros other Ho; apply lookup_delete_ne; congruence|].
  split; [apply remove_task_files_subseteq|].
  apply remove_task_files_removed.
Qed.

Lemma delete_task_removes_witness :
  exists s',
    Routes.delete_task refuse_report task1 server1
    = (Ok (u "Task task-1 deleted successfully"), s')
    /\ Routes.db s' !! task1 = None.
Proof.
  destruct (delete_task_removes refuse_report task1 server1 queued1 eq_refl)
    as (s' & H1 & H2 & _).
  exists s'. split; [exact H1|exact H2].
Defined.

(** * Further properties *)

Import Scenarios.

(** ** The gateway: attempts *)

Section AttemptFacts.

Variable svc : service.

(** X1.  A call that raises at its first [k] attempts, [k < 3], and
    answers at the next one returns that answer after exactly [k + 1] raw
    calls. *)
Theorem generate_content_async_recovers (p : prompt) (t : Q) (n k : nat) (r : str) :
  (k < 3)%nat ->
  (forall j, (j < k)%nat -> exists e, svc (n + j)%nat p t = Raise e) ->
  svc (n + k)%nat p t = Ok r ->
  generate_content_async svc p t n = (Ok r, (n + k + 1)%nat).
Proof.
  intros Hk Hfail Hok.
  unfold generate_content_async, generate_content_once. simpl.
  destruct k as [|[|[|k]]]; [| | |lia].
  - rewrite Nat.add_0_r in Hok. rewrite Hok. f_equal. lia.
  - destruct (Hfail 0%nat ltac:(lia)) as [e0 H0]. rewrite Nat.add_0_r in H0.
    rewrite H0. replace (S n) with (n + 1)%nat by lia. rewrite Hok. f_equal. lia.
  - destruct (Hfail 0%nat ltac:(lia)) as [e0 H0]. rewrite Nat.add_0_r in H0.
    destruct (Hfail 1%nat ltac:(lia)) as [e1 H1].
    rewrite H0. replace (S n) with (n + 1)%nat by lia. rewrite H1.
    replace (S (n + 1)) with (n + 2)%nat by lia. rewrite Hok. f_equal. lia.
Qed.

Lemma attempts_bound (p : prompt) (t : Q) (n : nat) :
  (n < snd (generate_content_async svc p t n) <= n + 3)%nat.
Proof.
  unfold generate_content_async, generate_content_once. simpl.
  destruct (svc n p t); simpl; [lia|].
  destruct (svc (S n) p t); simpl; [lia|].
  destruct (svc (S (S n)) p t); simpl; lia.
Qed.

(** X2.  Whatever the service does, one call of [generate_content_async]
    makes at least one and at most three raw calls. *)
Theorem generate_content_async_attempts (p : prompt) (t : Q) (n : nat) :
  (n < snd (generate_content_async svc p t n) <= n + 3)%nat.
Proof.
  unfold generate_content_async, generate_content_once, stop_after_attempt.
  cbn [Nat.sub retry].
  destruct (svc n p t) as [r0|e0]; cbn [snd]; [lia|].
  destruct (svc (S n) p t) as [r1|e1]; cbn [snd]; [lia|].
  destruct (svc (S (S n)) p t) as [r2|e2]; cbn [snd]; lia.
Qed.

End AttemptFacts.

Lemma generate_content_async_recovers_witness :
  generate_content_async flaky (CVStructurePrompt []) (1 # 10) 0
  = (Ok profile_json, 3%nat).
Proof.
  apply (generate_content_async_recovers flaky (CVStructurePrompt []) (1 # 10) 0 2
           profile_json).
  - lia.
  - intros j Hj. destruct j as [|[|j]]; [eexists; reflexivity..|lia].
  - reflexivity.
Defined.

(** ** Counting the raw calls of the steps *)

Section CallCounts.

Lemma at_most_lift {A} (r : outcome A) : at_most 0 (lift r).
Proof. intros n. simpl. lia. Qed.

Lemma at_most_ret {A} (a : A) : at_most 0 (ret a).
Proof. intros n. simpl. lia. Qed.

Lemma at_most_bind {A B} (a b c : nat) (m : M A) (k : A -> M B) :
  at_most a m -> (forall x, at_most b (k x)) -> (a + b <= c)%nat ->
  at_most c (bind m k).
Proof.
  intros Hm Hk Hc n. unfold bind. specialize (Hm n).
  destruct (m n) as [[x|e] n']; simpl in *; [|lia].
  specialize (Hk x n'). lia.
Qed.

Lemma at_most_try_except {A} (a b c : nat) (body : M A) (handler : exn -> option (M A)) :
  at_most a body -> (forall e h, handler e = Some h -> at_most b h) -> (a + b <= c)%nat ->
  at_most c (try_except body handler).
Proof.
  intros Hm Hh Hc n. unfold try_except. specialize (Hm n).
  destruct (body n) as [[x|e] n']; simpl in *; [lia|].
  destruct (handler e) as [h|] eqn:E; simpl; [|lia].
  specialize (Hh e h E n'). lia.
Qed.

Variable svc : service.

Lemma at_most_generate (p : prompt) (t : Q) : at_most 3 (generate_content_async svc p t).
Proof. intros n. pose proof (attempts_bound svc p t n). lia. Qed.

Lemma at_most_extract (cv_text : str) : at_most 3 (extract_cv_structure svc cv_text).
Proof.
  unfold extract_cv_structure.
  apply (at_most_try_except 3 0).
  - apply (at_most_bind 3 0); [apply at_most_generate| |lia]. intros response.
    apply (at_most_bind 0 0); [apply at_most_lift| |lia]. intros data.
    apply (at_most_bind 0 0); [apply at_most_lift| |lia]. intros kw.
    apply at_most_lift.
  - intros e h. destruct e; intros [= <-]. apply at_most_ret.
  - lia.
Qed.

Lemma at_most_cv_match (cv_data : ExtractedCVData) (jd ctx : str) :
  at_most 3 (evaluate_cv_match svc cv_data jd ctx).
Proof.
  unfold evaluate_cv_match.
  apply (at_most_try_except 3 0).
  - apply (at_most_bind 3 0); [apply at_most_generate| |lia]. intros response.
    repeat (apply (at_most_bind 0 0); [apply at_most_lift| |lia]; intros ?).
    apply at_most_ret.
  - intros e h. destruct e; intros [= <-]; apply at_most_ret.
  - lia.
Qed.

Lemma at_most_project (project_text rubric : str) :
  at_most 6 (evaluate_project_report svc project_text rubric).
Proof.
  unfold evaluate_project_report.
  apply (at_most_try_except 6 0).
  - apply (at_most_bind 3 3); [apply at_most_generate| |lia]. intros response.
    apply (at_most_bind 0 3); [apply at_most_lift| |lia]. intros data.
    apply (at_most_bind 3 0); [apply at_most_generate| |lia]. intros refined.
    repeat (apply (at_most_bind 0 0); [apply at_most_lift| |lia]; intros ?).
    apply at_most_ret.
  - intros e h. destruct e; intros [= <-]; apply at_most_ret.
  - lia.
Qed.

Lemma at_most_summary (a b c d : pyval) : at_most 3 (generate_overall_summary svc a b c d).
Proof.
  unfold generate_overall_summary.
  apply (at_most_bind 0 3); [apply at_most_lift| |lia]. intros _.
  apply (at_most_try_except 3 0); [apply at_most_generate| |lia].
  intros e h [= <-]. apply at_most_ret.
Qed.

End CallCounts.

(** X3.  The whole pipeline of one task makes at most 15 raw calls to the
    generation service: five gateway calls of at most three attempts. *)
Theorem _execute_pipeline_calls (lower : str -> str) (svc : service)
    (docs : VectorDB.documents)
    (reader : DocumentProcessor.file_kind -> str -> outcome str)
    (task : EvaluationTask) (n : nat) :
  (n <= snd (EvaluationPipeline._execute_pipeline lower svc docs reader task n) <= n + 15)%nat.
Proof.
  revert n. change (at_most 15 (EvaluationPipeline._execute_pipeline lower svc docs reader task)).
  unfold EvaluationPipeline._execute_pipeline.
  apply (at_most_bind 0 15); [apply at_most_lift| |lia]. intros cv_text.
  apply (at_most_bind 0 15); [apply at_most_lift| |lia]. intros project_text.
  apply (at_most_bind 3 12); [apply at_most_extract| |lia]. intros cv_data.
  unfold EvaluationPipeline.evaluate_profile.
  apply (at_most_bind 0 12); [apply at_most_lift| |lia]. intros job_context.
  apply (at_most_bind 0 12); [apply at_most_lift| |lia]. intros cv_context.
  apply (at_most_bind 3 9); [apply at_most_cv_match| |lia]. intros [[rate fb] ev].
  apply (at_most_bind 0 9); [apply at_most_lift| |lia]. intros project_context.
  apply (at_most_bind 6 3); [apply at_most_project| |lia]. intros [[score pfb] pev].
  apply (at_most_bind 3 0); [apply at_most_summary| |lia]. intros summary.
  apply at_most_lift.
Qed.

(** ** Service errors and formatting errors *)

(** X4.  When the service raises at every call, the summary step makes
    its three attempts and returns the fixed sentence instead of raising. *)
Theorem generate_overall_summary_fixed_sentence (svc : service)
    (cv_feedback project_feedback rate score : pyval) (n : nat) :
  format_2f rate = Ok tt ->
  (forall k, exists e,
      svc k (SummaryPrompt rate cv_feedback score project_feedback) (3 # 10) = Raise e) ->
  generate_overall_summary svc cv_feedback project_feedback rate score n
  = (Ok (u "Unable to generate comprehensive summary due to evaluation errors."),
     (n + 3)%nat).
Proof.
  intros Hf H. unfold generate_overall_summary. rewrite Hf, bind_lift_ok.
  unfold try_except, generate_content_async, generate_content_once. simpl.
  destruct (H n) as [e0 ->]. destruct (H (S n)) as [e1 ->].
  destruct (H (S (S n))) as [e2 ->]. simpl. f_equal. lia.
Qed.

Lemma generate_overall_summary_fixed_sentence_witness :
  generate_overall_summary always_failing (PyStr []) (PyStr []) (PyFloat (Fin (1 # 2)))
    (PyInt 7) 0
  = (Ok default_summary, 3%nat).
Proof.
  apply (generate_overall_summary_fixed_sentence always_failing (PyStr []) (PyStr [])
           (PyFloat (Fin (1 # 2))) (PyInt 7) 0).
  - reflexivity.
  - intros k. eexists. reflexivity.
Defined.

(** X5.  A match rate that does not format with [.2f] (a string, null, a
    list, an object) makes the summary step raise before any raw call: the
    prompt is built outside of the [try], so the fixed sentence is not
    used. *)
Theorem generate_overall_summary_format_error (svc : service)
    (cv_feedback project_feedback rate score : pyval) (n : nat) :
  match rate with
  | PyStr _ | PyNone | PyList _ | PyDict _ => True
  | _ => False
  end ->
  exists e, generate_overall_summary svc cv_feedback project_feedback rate score n
            = (Raise e, n)
            /\ match e with ValueError _ | TypeError _ => True | _ => False end.
Proof.
  intros H. unfold generate_overall_summary.
  destruct rate; try destruct H; eexists; (split; [reflexivity|exact I]).
Qed.

Lemma generate_overall_summary_format_error_witness :
  exists e, generate_overall_summary well_behaved (PyStr []) (PyStr []) (PyStr (u "high"))
              (PyInt 7) 0
            = (Raise e, 0%nat)
            /\ match e with ValueError _ | TypeError _ => True | _ => False end.
Proof.
  apply (generate_overall_summary_format_error well_behaved (PyStr []) (PyStr [])
           (PyStr (u "high")) (PyInt 7) 0 I).
Defined.

(** X6.  When the service raises at every call, the three structured steps
    do not fall back: each raises the [RetryError] of its gateway call after
    three raw calls. *)
Theorem structured_steps_propagate_service_errors (svc : service) (err : nat -> exn)
    (n : nat) :
  (forall k p t, svc k p t = Raise (err k)) ->
  (forall cv_text,
      extract_cv_structure svc cv_text n
      = (Raise (RetryError (err (n + 2)%nat)), (n + 3)%nat))
  /\ (forall cv_data jd ctx,
        evaluate_cv_match svc cv_data jd ctx n
        = (Raise (RetryError (err (n + 2)%nat)), (n + 3)%nat))
  /\ (forall project_text rubric,
        evaluate_project_report svc project_text rubric n
        = (Raise (RetryError (err (n + 2)%nat)), (n + 3)%nat)).
Proof.
  intros H.
  assert (Hg : forall p t,
             generate_content_async svc p t n
             = (Raise (RetryError (err (n + 2)%nat)), (n + 3)%nat)).
  { intros p t. unfold generate_content_async, generate_content_once. simpl.
    rewrite !H. replace (S (S n)) with (n + 2)%nat by lia.
    replace (S (n + 2)) with (n + 3)%nat by lia. reflexivity. }
  repeat split; intros;
    unfold extract_cv_structure, evaluate_cv_match, evaluate_project_report, try_except;
    rewrite (bind_raise _ _ _ _ _ (Hg _ _)); reflexivity.
Qed.

Lemma structured_steps_propagate_service_errors_witness :
  extract_cv_structure always_failing [] 0
  = (Raise (RetryError (Exception (u "boom"))), 3%nat).
Proof.
  destruct (structured_steps_propagate_service_errors always_failing
              (fun _ => Exception (u "boom")) 0 (fun _ _ _ => eq_refl)) as (H & _ & _).
  apply H.
Defined.

(** ** Failures of a run *)

Section RunFacts.

Import Lifecycle EvaluationPipeline DocumentProcessor VectorDB.

Variable lower : str -> str.
Variable svc : service.
Variable docs : documents.
Variable reader : file_kind -> str -> outcome str.

Lemma _execute_pipeline_unreadable (task : EvaluationTask) (e : exn) (calls : nat) :
  extract_text_from_file lower reader (cv_file_path task) = Raise e
  \/ (exists cv_text,
        extract_text_from_file lower reader (cv_file_path task) = Ok cv_text
        /\ extract_text_from_file lower reader (project_report_path task) = Raise e) ->
  _execute_pipeline lower svc docs reader task calls = (Raise e, calls).
Proof.
  unfold _execute_pipeline. intros [H|(cv_text & H1 & H2)].
  - rewrite H. reflexivity.
  - rewrite H1, bind_lift_ok, H2. reflexivity.
Qed.

End RunFacts.

(** X7.  When a file of the task cannot be turned into text (unsupported
    extension, or the reader raises), the pipeline raises that exception
    without a single raw call to the service, and the run records the task
    as Failed with the exception's message; the result stays as it was. *)
Theorem unreadable_file_fails_task (lower : str -> str) (svc : service)
    (docs : VectorDB.documents)
    (reader : DocumentProcessor.file_kind -> str -> outcome str)
    (calls : nat) (task_id : str) (db : table) (task : EvaluationTask) (e : exn) :
  db !! task_id = Some task ->
  DocumentProcessor.extract_text_from_file lower reader (cv_file_path task) = Raise e
  \/ (exists cv_text,
        DocumentProcessor.extract_text_from_file lower reader (cv_file_path task)
        = Ok cv_text
        /\ DocumentProcessor.extract_text_from_file lower reader (project_report_path task)
           = Raise e) ->
  EvaluationPipeline._execute_pipeline lower svc docs reader task calls = (Raise e, calls)
  /\ exists final,
      Lifecycle.final_row task_id
        (EvaluationPipeline.run_evaluation lower svc docs reader None calls task_id db)
      = Some final
      /\ status final = FAILED
      /\ error_message final = Some (str_exn e)
      /\ result final = result task.
Proof.
  intros Ht H. split; [apply _execute_pipeline_unreadable, H|].
  eexists. split.
  - apply (run_evaluation_failed lower svc docs reader None calls task_id db task e Ht).
    rewrite (evaluate_pipeline lower svc docs reader calls task_id db task Ht).
    rewrite (_execute_pipeline_unreadable lower svc docs reader
               (EvaluationPipeline.set_processing task) e calls H).
    reflexivity.
  - repeat split.
Qed.

Lemma unreadable_file_fails_task_witness :
  exists final,
    Lifecycle.final_row task1
      (EvaluationPipeline.run_evaluation lower_latin well_behaved VectorDB.default_documents
         unreadable None 0 task1 table1)
    = Some final
    /\ status final = FAILED
    /\ error_message final = Some (u "No such file or directory").
Proof.
  destruct (unreadable_file_fails_task lower_latin well_behaved VectorDB.default_documents
              unreadable 0 task1 table1 queued1 (OSError (u "No such file or directory"))
              eq_refl (or_introl eq_refl)) as (_ & final & H1 & H2 & H3 & _).
  exists final. auto.
Defined.

(** X8.  When the simulated delay draws a failure, the run records the task
    as Failed with the drawn message and raises it; neither the files nor
    the service matter. *)
Theorem simulated_failure_fails_task (lower : str -> str) (svc : service)
    (docs : VectorDB.documents)
    (reader : DocumentProcessor.file_kind -> str -> outcome str)
    (choice : EvaluationPipeline.failure_choice)
    (calls : nat) (task_id : str) (db : table) (task : EvaluationTask) :
  db !! task_id = Some task ->
  snd (EvaluationPipeline.run_evaluation lower svc docs reader (Some choice) calls task_id db)
  = Raise (Exception (EvaluationPipeline.failure_message choice))
  /\ exists final,
      Lifecycle.final_row task_id
        (EvaluationPipeline.run_evaluation lower svc docs reader (Some choice) calls
           task_id db)
      = Some final
      /\ status final = FAILED
      /\ error_message final = Some (EvaluationPipeline.failure_message choice)
      /\ result final = result task.
Proof.
  intros Ht.
  assert (He : EvaluationPipeline.evaluate lower svc docs reader (Some choice) calls task_id
                 (alter EvaluationPipeline.set_processing task_id db)
               = Raise (Exception (EvaluationPipeline.failure_message choice))).
  { unfold EvaluationPipeline.evaluate. rewrite lookup_alter_eq, Ht. reflexivity. }
  split.
  - unfold EvaluationPipeline.run_evaluation. rewrite He. reflexivity.
  - eexists. split.
    + apply (run_evaluation_failed lower svc docs reader (Some choice) calls task_id db
               task _ Ht He).
    + repeat split.
Qed.

Lemma simulated_failure_fails_task_witness :
  exists final,
    Lifecycle.final_row task1
      (EvaluationPipeline.run_evaluation lower_latin well_behaved VectorDB.default_documents
         readable (Some EvaluationPipeline.NetworkTimeout) 0 task1 table1)
    = Some final
    /\ status final = FAILED
    /\ error_message final = Some (u "Network timeout during AI processing").
Proof.
  destruct (simulated_failure_fails_task lower_latin well_behaved
              VectorDB.default_documents readable EvaluationPipeline.NetworkTimeout
              0 task1 table1 queued1 eq_refl) as (_ & final & H1 & H2 & H3 & _).
  exists final. auto.
Defined.

(** X9.  A run for an id that is not in the table commits the table
    unchanged both times (no row is created) and raises [ValueError] with
    the id in its message. *)
Theorem run_evaluation_missing_task (lower : str -> str) (svc : service)
    (docs : VectorDB.documents)
    (reader : DocumentProcessor.file_kind -> str -> outcome str)
    (draw : option EvaluationPipeline.failure_choice)
    (calls : nat) (task_id : str) (db : table) :
  db !! task_id = None ->
  EvaluationPipeline.run_evaluation lower svc docs reader draw calls task_id db
  = ([db; db], Raise (ValueError (u "Task " ++ task_id ++ u " not found"))).
Proof.
  intros Ht.
  assert (Ha : forall f, alter f task_id db = db).
  { intros f. apply alter_id. intros x Hx. rewrite Ht in Hx. discriminate. }
  unfold EvaluationPipeline.run_evaluation, EvaluationPipeline.evaluate.
  rewrite !Ha, Ht, !Ha. reflexivity.
Qed.

Lemma run_evaluation_missing_task_witness :
  EvaluationPipeline.run_evaluation lower_latin well_behaved VectorDB.default_documents
    readable None 0 (u "task-2") table1
  = ([table1; table1], Raise (ValueError (u "Task task-2 not found"))).
Proof.
  apply (run_evaluation_missing_task lower_latin well_behaved VectorDB.default_documents
           readable None 0 (u "task-2") table1).
  vm_compute. reflexivity.
Defined.

(** X10.  In every state a run commits, the rows of the other tasks are as
    before, and the row of the task keeps its file paths, job description
    and creation time. *)
Theorem run_evaluation_frame (lower : str -> str) (svc : service)
    (docs : VectorDB.documents)
    (reader : DocumentProcessor.file_kind -> str -> outcome str)
    (draw : option EvaluationPipeline.failure_choice)
    (calls : nat) (task_id : str) (db : table) :
  Forall
    (fun d : table =>
       (forall other, other <> task_id -> d !! other = db !! other)
       /\ (forall t', d !! task_id = Some t' ->
             exists t, db !! task_id = Some t
                       /\ cv_file_path t' = cv_file_path t
                       /\ project_report_path t' = project_report_path t
                       /\ job_description t' = job_description t
                       /\ created_at t' = created_at t))
    (fst (EvaluationPipeline.run_evaluation lower svc docs reader draw calls task_id db)).
Proof.
  assert (H1 : forall f (d : table),
             (forall other, other <> task_id -> d !! other = db !! other) ->
             forall other, other <> task_id -> alter f task_id d !! other = db !! other).
  { intros f d Hd other Ho. rewrite lookup_alter_ne by congruence. apply Hd, Ho. }
  assert (H2 : forall (f : EvaluationTask -> EvaluationTask) (d : table),
             (forall t, cv_file_path (f t) = cv_file_path t
                        /\ project_report_path (f t) = project_report_path t
                        /\ job_description (f t) = job_description t
                        /\ created_at (f t) = created_at t) ->
             (forall t', d !! task_id = Some t' ->
                exists t, db !! task_id = Some t
                          /\ cv_file_path t' = cv_file_path t
                          /\ project_report_path t' = project_report_path t
                          /\ job_description t' = job_description t
                          /\ created_at t' = created_at t) ->
             forall t', alter f task_id d !! task_id = Some t' ->
                exists t, db !! task_id = Some t
                          /\ cv_file_path t' = cv_file_path t
                          /\ project_report_path t' = project_report_path t
                          /\ job_description t' = job_description t
                          /\ created_at t' = created_at t).
  { intros f d Hf Hd t'. rewrite lookup_alter_eq.
    destruct (d !! task_id) as [x|] eqn:E; [|discriminate]. intros [= <-].
    destruct (Hd x eq_refl) as (t & Ht & Ha & Hb & Hc & He).
    destruct (Hf x) as (Fa & Fb & Fc & Fe).
    exists t. rewrite Fa, Fb, Fc, Fe. auto. }
  assert (H0 : forall t', db !! task_id = Some t' ->
                exists t, db !! task_id = Some t
                          /\ cv_file_path t' = cv_file_path t
                          /\ project_report_path t' = project_report_path t
                          /\ job_description t' = job_description t
                          /\ created_at t' = created_at t) by eauto 6.
  unfold EvaluationPipeline.run_evaluation.
  destruct (EvaluationPipeline.evaluate lower svc docs reader draw calls task_id
              (alter EvaluationPipeline.set_processing task_id db)); cbn [fst];
    repeat apply Forall_cons_2; try apply Forall_nil_2; split.
  all: try (apply H1; try apply H1; auto).
  all: apply H2; [intros t0; repeat split|]; try exact H0.
  all: apply H2; [intros t0; repeat split|exact H0].
Qed.

(** ** File names and formats *)

Section FormatFacts.

Import DocumentProcessor.

Lemma after_last_None_inv (c : N) (s : str) : after_last c s = None -> c ∉ s.
Proof.
  induction s as [|y s IH]; intros E; [apply not_elem_of_nil|].
  simpl in E. destruct (after_last c s); [discriminate|].
  destruct (N.eqb_spec y c); [discriminate|].
  apply not_elem_of_cons. auto.
Qed.

Lemma after_last_Some (c : N) (s r : str) :
  after_last c s = Some r -> exists pre, s = pre ++ c :: r /\ c ∉ r.
Proof.
  revert r. induction s as [|x s IH]; intros r; simpl; [discriminate|].
  destruct (after_last c s) as [r'|] eqn:E.
  - intros [= <-]. destruct (IH r' eq_refl) as (pre & -> & Hr).
    exists (x :: pre). auto.
  - destruct (N.eqb_spec x c) as [->|Hx]; [|discriminate].
    intros [= <-]. exists []. split; [reflexivity|].
    apply after_last_None_inv, E.
Qed.

Lemma after_last_None (c : N) (s : str) : c ∉ s -> after_last c s = None.
Proof.
  induction s as [|x s IH]; intros H; [reflexivity|].
  apply not_elem_of_cons in H as [Hx Hs]. simpl. rewrite (IH Hs).
  destruct (N.eqb_spec x c); [congruence|reflexivity].
Qed.

Lemma after_last_app (c : N) (a b : str) :
  after_last c (a ++ b)
  = match after_last c b with
    | Some r => Some r
    | None => (fun r => r ++ b) <$> after_last c a
    end.
Proof.
  induction a as [|x a IH]; simpl.
  - destruct (after_last c b); reflexivity.
  - rewrite IH. destruct (after_last c b); [reflexivity|].
    destruct (after_last c a); [reflexivity|].
    simpl. destruct (x =? c)%N; reflexivity.
Qed.

Lemma skip_dots_cons (c : N) (s : str) :
  skip_dots (c :: s) = if (c =? 46)%N then skip_dots s else c :: s.
Proof.
  destruct c as [|p]; [reflexivity|].
  do 7 (destruct p as [p|p|]; try reflexivity).
Qed.

Lemma skip_dots_suffix (s : str) : skip_dots s `suffix_of` s.
Proof.
  induction s as [|c s IH]; [reflexivity|].
  rewrite skip_dots_cons. destruct (c =? 46)%N; [|reflexivity].
  apply suffix_cons_r, IH.
Qed.

Lemma after_last_skip_dots (s r : str) :
  after_last 46 (skip_dots s) = Some r -> after_last 46 s = Some r.
Proof.
  induction s as [|c s IH]; [auto|].
  rewrite skip_dots_cons. destruct (N.eqb_spec c 46) as [->|Hc]; [|auto].
  intros H. simpl. rewrite (IH H). reflexivity.
Qed.

(** The last path component holds no slash and ends the path. *)
Lemma last_component_shape (p : str) :
  (47%N ∉ default p (after_last 47 p)) /\ (default p (after_last 47 p) `suffix_of` p).
Proof.
  destruct (after_last 47 p) as [r|] eqn:E; simpl.
  - apply after_last_Some in E as (pre & -> & Hr). split; [exact Hr|].
    exists (pre ++ [47%N]). rewrite <- app_assoc. reflexivity.
  - split; [|reflexivity]. apply after_last_None_inv, E.
Qed.

Variable lower : str -> str.

Lemma validate_file_format_cases (p : str) :
  (validate_file_format lower p = true ->
   exists k, forall reader, extract_text_from_file lower reader p = reader k p)
  /\ (validate_file_format lower p = false ->
      forall reader,
        extract_text_from_file lower reader p
        = Raise (ValueError (u "Unsupported file format: " ++ lower (splitext_ext p)))).
Proof.
  unfold validate_file_format, extract_text_from_file.
  destruct (decide (lower (splitext_ext p) = u ".pdf")) as [E|E1].
  { split; [exists PDF; reflexivity|]. intros H. apply bool_decide_eq_false in H.
    exfalso. apply H. rewrite E. left. }
  destruct (decide (lower (splitext_ext p) ∈ [u ".docx"; u ".doc"])) as [E|E2].
  { rewrite (bool_decide_eq_true_2 _ E).
    split; [exists DOCX; reflexivity|]. intros H. apply bool_decide_eq_false in H.
    exfalso. apply H. apply elem_of_cons in E as [E|E]; [rewrite E; right; left|].
    apply elem_of_cons in E as [E|E]; [rewrite E; do 2 right; left|inversion E]. }
  rewrite (bool_decide_eq_false_2 _ E2).
  destruct (decide (lower (splitext_ext p) = u ".txt")) as [E|E3].
  { split; [exists TXT; reflexivity|]. intros H. apply bool_decide_eq_false in H.
    exfalso. apply H. rewrite E. do 3 right. left. }
  split; [|reflexivity].
  intros H. apply bool_decide_eq_true in H. exfalso.
  apply elem_of_cons in H as [H|H]; [contradiction|].
  apply elem_of_cons in H as [H|H]; [apply E2; rewrite H; left|].
  apply elem_of_cons in H as [H|H]; [apply E2; rewrite H; right; left|].
  apply elem_of_cons in H as [H|H]; [contradiction|inversion H].
Qed.

(** Under a directory and a stem without dot or slash the extension of a
    file name is kept, when it has one. *)
Lemma splitext_ext_prefixed (stem f : str) :
  Forall (fun c => c <> 46%N /\ c <> 47%N) stem -> stem <> [] ->
  splitext_ext f <> [] ->
  splitext_ext (u "uploads/" ++ stem ++ f) = splitext_ext f.
Proof.
  intros Hstem Hne Hext.
  assert (H46 : 46%N ∉ stem).
  { intros H. rewrite Forall_forall in Hstem. destruct (Hstem _ H). congruence. }
  assert (H47 : 47%N ∉ stem).
  { intros H. rewrite Forall_forall in Hstem. destruct (Hstem _ H). congruence. }
  unfold splitext_ext in *.
  rewrite (app_assoc (u "uploads/") stem f), after_last_app.
  destruct (after_last 47 f) as [r|] eqn:E; [reflexivity|].
  rewrite after_last_app, (after_last_None 47 stem H47). cbn [default fmap option_fmap option_map].
  change (after_last 47 (u "uploads/")) with (Some ([] : str)). cbn [default fmap option_fmap option_map].
  cbn [app].
  destruct stem as [|c stem]; [congruence|].
  unfold id. rewrite <- app_comm_cons, skip_dots_cons.
  apply Forall_cons in Hstem as [[Hc _] _].
  destruct (N.eqb_spec c 46); [congruence|].
  rewrite app_comm_cons, after_last_app, (after_last_None 46 (c :: stem) H46).
  cbn [default] in Hext.
  destruct (after_last 46 (skip_dots f)) as [e|] eqn:Ee; [|congruence].
  rewrite (after_last_skip_dots _ _ Ee). reflexivity.
Qed.

Lemma validate_file_format_ext (f : str) :
  lower [] = [] -> validate_file_format lower f = true -> splitext_ext f <> [].
Proof.
  intros Hl H E. unfold validate_file_format in H. rewrite E, Hl in H.
  apply bool_decide_eq_true in H.
  repeat (apply elem_of_cons in H as [H|H]; [discriminate H|]). inversion H.
Qed.

End FormatFacts.

(** X11.  [validate_file_format] and [extract_text_from_file] agree: a name
    the validator accepts is handed to one of the readers, whatever the
    readers are, and a name it rejects makes the extraction raise
    [ValueError] with the lowered extension in its message. *)
Theorem validate_file_format_agrees (lower : str -> str) (p : str) :
  (DocumentProcessor.validate_file_format lower p = true ->
   exists k, forall reader,
       DocumentProcessor.extract_text_from_file lower reader p = reader k p)
  /\ (DocumentProcessor.validate_file_format lower p = false ->
      forall reader,
        DocumentProcessor.extract_text_from_file lower reader p
        = Raise (ValueError (u "Unsupported file format: "
                             ++ lower (DocumentProcessor.splitext_ext p)))).
Proof.
  unfold DocumentProcessor.validate_file_format, DocumentProcessor.extract_text_from_file.
  set (e := lower (DocumentProcessor.splitext_ext p)).
  destruct (decide (e = u ".pdf")) as [E1|E1].
  { split; [exists DocumentProcessor.PDF; reflexivity|].
    intros H. apply bool_decide_eq_false in H. destruct H. rewrite E1. left. }
  destruct (decide (e ∈ [u ".docx"; u ".doc"])) as [E2|E2].
  { rewrite (bool_decide_eq_true_2 _ E2).
    split; [exists DocumentProcessor.DOCX; reflexivity|].
    intros H. apply bool_decide_eq_false in H. destruct H. right.
    apply elem_of_cons in E2 as [E2|E2]; [rewrite E2; left|].
    apply elem_of_cons in E2 as [E2|E2]; [rewrite E2; right; left|inversion E2]. }
  rewrite (bool_decide_eq_false_2 _ E2).
  destruct (decide (e = u ".txt")) as [E3|E3].
  { split; [exists DocumentProcessor.TXT; reflexivity|].
    intros H. apply bool_decide_eq_false in H. destruct H. rewrite E3. do 3 right. left. }
  split; [|reflexivity].
  intros H. apply bool_decide_eq_true in H. exfalso.
  apply elem_of_cons in H as [H|H]; [contradiction|].
  apply elem_of_cons in H as [H|H]; [apply E2; rewrite H; left|].
  apply elem_of_cons in H as [H|H]; [apply E2; rewrite H; right; left|].
  apply elem_of_cons in H as [H|H]; [contradiction|inversion H].
Qed.

(** The extension is empty, or a dot followed by characters that are
    neither dot nor slash; it always ends the path. *)
Lemma splitext_ext_shape (p : str) :
  (DocumentProcessor.splitext_ext p = []
   \/ exists e, DocumentProcessor.splitext_ext p = 46%N :: e /\ (46%N ∉ e) /\ (47%N ∉ e))
  /\ DocumentProcessor.splitext_ext p `suffix_of` p.
Proof.
  unfold DocumentProcessor.splitext_ext.
  destruct (last_component_shape p) as [Hslash Hsuf].
  set (name := default p (DocumentProcessor.after_last 47 p)) in *.
  pose proof (skip_dots_suffix name) as Hskip.
  destruct (DocumentProcessor.after_last 46 (DocumentProcessor.skip_dots name))
    as [e|] eqn:E.
  - apply after_last_Some in E as (pre & Hpre & He).
    assert (Hs : (46%N :: e) `suffix_of` name).
    { etransitivity; [|exact Hskip]. exists pre. exact Hpre. }
    split.
    + right. exists e. split; [reflexivity|]. split; [exact He|].
      intros H. apply Hslash. destruct Hs as [q ->].
      apply elem_of_app. right. right. exact H.
    + etransitivity; [exact Hs|exact Hsuf].
  - split; [left; reflexivity|]. apply suffix_nil.
Qed.

(** X12.  A name whose last path component has no dot after its leading
    dots (no extension, or a hidden file such as [.pdf]) is rejected by
    [validate_file_format], and its extraction raises [ValueError] naming an
    empty extension. *)
Theorem validate_file_format_needs_extension (lower : str -> str) (p : str) :
  lower [] = [] ->
  46%N ∉ DocumentProcessor.skip_dots (default p (DocumentProcessor.after_last 47 p)) ->
  DocumentProcessor.validate_file_format lower p = false
  /\ forall reader,
      DocumentProcessor.extract_text_from_file lower reader p
      = Raise (ValueError (u "Unsupported file format: ")).
Proof.
  intros Hl Hdot.
  assert (He : DocumentProcessor.splitext_ext p = []).
  { unfold DocumentProcessor.splitext_ext. rewrite (after_last_None _ _ Hdot). reflexivity. }
  assert (Hv : DocumentProcessor.validate_file_format lower p = false).
  { unfold DocumentProcessor.validate_file_format. rewrite He, Hl. reflexivity. }
  split; [exact Hv|]. intros reader.
  rewrite (proj2 (validate_file_format_cases lower p) Hv reader), He, Hl, app_nil_r.
  reflexivity.
Qed.

Lemma validate_file_format_needs_extension_witness :
  DocumentProcessor.validate_file_format lower_latin (u "uploads/.pdf") = false.
Proof.
  apply (validate_file_format_needs_extension lower_latin (u "uploads/.pdf")).
  - reflexivity.
  - vm_compute. apply not_elem_of_cons. split; [discriminate|].
    apply not_elem_of_cons. split; [discriminate|].
    apply not_elem_of_cons. split; [discriminate|apply not_elem_of_nil].
Defined.

(** ** Submission routes and the formats of stored files *)

Section StoredFormats.

Import Routes DocumentProcessor.

Variable lower : str -> str.

Lemma session_stem (session_id tag : str) :
  Forall (fun c => c <> 46%N /\ c <> 47%N) session_id ->
  Forall (fun c => c <> 46%N /\ c <> 47%N) tag -> tag <> [] ->
  Forall (fun c => c <> 46%N /\ c <> 47%N) (session_id ++ tag) /\ session_id ++ tag <> [].
Proof.
  intros Hs Ht Hne. split; [apply Forall_app; auto|].
  destruct session_id; [exact Hne|discriminate].
Qed.

(** A name the validator accepts is still accepted under its stored path. *)
Lemma stored_path_valid (session_id tag f : str) :
  lower [] = [] ->
  Forall (fun c => c <> 46%N /\ c <> 47%N) session_id ->
  Forall (fun c => c <> 46%N /\ c <> 47%N) tag -> tag <> [] ->
  validate_file_format lower f = true ->
  validate_file_format lower (UPLOAD_DIR ++ u "/" ++ session_id ++ tag ++ f) = true.
Proof.
  intros Hl Hs Ht Hne Hv.
  destruct (session_stem session_id tag Hs Ht Hne) as [Hstem Hn].
  pose proof (validate_file_format_ext lower f Hl Hv) as Hext.
  unfold validate_file_format in *.
  replace (UPLOAD_DIR ++ u "/" ++ session_id ++ tag ++ f)
    with (u "uploads/" ++ (session_id ++ tag) ++ f)
    by (rewrite <- app_assoc; reflexivity).
  rewrite (splitext_ext_prefixed _ _ Hstem Hn Hext). exact Hv.
Qed.

Lemma tag_cv : Forall (fun c => c <> 46%N /\ c <> 47%N) (u "_cv_") /\ u "_cv_" <> [].
Proof. split; [repeat constructor; discriminate|discriminate]. Qed.

Lemma tag_project :
  Forall (fun c => c <> 46%N /\ c <> 47%N) (u "_project_") /\ u "_project_" <> [].
Proof. split; [repeat constructor; discriminate|discriminate]. Qed.

End StoredFormats.

(** X13.  A task that [POST /evaluate-direct] creates never fails for the
    format of its files: with a session id free of dots and slashes (a
    uuid), both stored paths have extensions the extraction hands to a
    reader. *)
Theorem evaluate_files_direct_formats_supported (lower : str -> str)
    (cv_file project_report : Routes.UploadFile) (description : option str)
    (session_id new_id : str) (now : Z) (s s' : Routes.server)
    (r : Routes.TaskResponse) :
  lower [] = [] ->
  Forall (fun c => c <> 46%N /\ c <> 47%N) session_id ->
  Routes.evaluate_files_direct lower cv_file project_report description session_id new_id
    now s = (Ok r, s') ->
  exists t k1 k2,
    Routes.db s' !! new_id = Some t
    /\ status t = QUEUED
    /\ (forall reader,
          DocumentProcessor.extract_text_from_file lower reader (cv_file_path t)
          = reader k1 (cv_file_path t))
    /\ (forall reader,
          DocumentProcessor.extract_text_from_file lower reader (project_report_path t)
          = reader k2 (project_report_path t)).
Proof.
  intros Hl Hs. unfold Routes.evaluate_files_direct.
  destruct (DocumentProcessor.validate_file_format lower (Routes.filename cv_file)) eqn:V1;
    cbn [negb]; [|discriminate].
  destruct (DocumentProcessor.validate_file_format lower (Routes.filename project_report))
    eqn:V2; cbn [negb]; [|discriminate].
  destruct (Routes.MAX_FILE_SIZE <? N.of_nat (length (Routes.body cv_file)))%N;
    [discriminate|].
  destruct (Routes.MAX_FILE_SIZE <? N.of_nat (length (Routes.body project_report)))%N;
    [discriminate|].
  unfold Routes.add_and_schedule. cbn [Routes.db].
  destruct (Routes.db s !! new_id); [discriminate|].
  intros [= <- <-]. cbn [Routes.db].
  destruct (tag_cv) as [Tc Nc]. destruct (tag_project) as [Tp Np].
  pose proof (stored_path_valid lower session_id (u "_cv_") _ Hl Hs Tc Nc V1) as P1.
  pose proof (stored_path_valid lower session_id (u "_project_") _ Hl Hs Tp Np V2) as P2.
  destruct (proj1 (validate_file_format_cases lower _) P1) as [k1 K1].
  destruct (proj1 (validate_file_format_cases lower _) P2) as [k2 K2].
  eexists. exists k1, k2. rewrite lookup_insert_eq.
  split; [reflexivity|]. split; [reflexivity|]. split; [exact K1|exact K2].
Qed.

Lemma lower_latin_nil : lower_latin [] = [].
Proof. reflexivity. Defined.

Lemma evaluate_files_direct_formats_supported_witness :
  exists t k1 k2,
    Routes.db
      (snd (Routes.evaluate_files_direct lower_latin
              {| Routes.filename := u "My.CV.PDF"; Routes.body := [37; 80]%N |}
              {| Routes.filename := u "report.txt"; Routes.body := [] |}
              None (u "3f2a-77") task1 100 server0)) !! task1 = Some t
    /\ status t = QUEUED
    /\ (forall reader,
          DocumentProcessor.extract_text_from_file lower_latin reader (cv_file_path t)
          = reader k1 (cv_file_path t))
    /\ (forall reader,
          DocumentProcessor.extract_text_from_file lower_latin reader (project_report_path t)
          = reader k2 (project_report_path t)).
Proof.
  eapply (evaluate_files_direct_formats_supported lower_latin
            {| Routes.filename := u "My.CV.PDF"; Routes.body := [37; 80]%N |}
            {| Routes.filename := u "report.txt"; Routes.body := [] |}
            None (u "3f2a-77") task1 100 server0).
  - reflexivity.
  - repeat constructor; discriminate.
  - vm_compute. reflexivity.
Defined.

(** X14.  The default limit of [validate_file_size] is the limit of the
    upload routes: for a file whose size can be read, the size check of the
    routes rejects it exactly when [validate_file_size] does; a file whose
    size cannot be read is invalid. *)
Theorem validate_file_size_matches_routes (getsize : str -> outcome Z) (path : str) :
  (forall content : list N,
      getsize path = Ok (Z.of_nat (length content)) ->
      FileSize.validate_file_size getsize path 10
      = negb (Routes.MAX_FILE_SIZE <? N.of_nat (length content))%N)
  /\ (forall e max_size_mb,
        getsize path = Raise e ->
        FileSize.validate_file_size getsize path max_size_mb = false).
Proof.
  unfold FileSize.validate_file_size, Routes.MAX_FILE_SIZE. split.
  - intros content ->.
    destruct (N.ltb_spec (10 * 1024 * 1024) (N.of_nat (length content)));
      simpl negb; [apply Z.leb_gt|apply Z.leb_le]; lia.
  - intros e m ->. reflexivity.
Qed.

Lemma upload_files_accepted (lower : str -> str)
    (cv_file project_report : Routes.UploadFile) (session_id : str)
    (s s1 : Routes.server) (response : Upload.FileUploadResponse) :
  Upload.upload_files lower cv_file project_report session_id s = (Ok response, s1) ->
  Routes.db s1 = Routes.db s
  /\ Routes.scheduled s1 = Routes.scheduled s
  /\ Upload.saved_cv_path response ∈ Routes.files s1
  /\ Upload.saved_project_path response ∈ Routes.files s1.
Proof.
  unfold Upload.upload_files.
  repeat match goal with
         | |- context [if ?b then _ else _] => destruct b; [discriminate|]
         end.
  intros [= <- <-]. cbn. repeat split; set_solver.
Qed.

(** X15.  [POST /upload] never touches the task table and schedules
    nothing.  A rejected upload leaves the storage as it was, with a 400
    response; an accepted one has passed both format checks and both size
    checks, and afterwards both returned paths exist in storage. *)
Theorem upload_files_effect (lower : str -> str)
    (cv_file project_report : Routes.UploadFile) (session_id : str) (s : Routes.server) :
  let r := Upload.upload_files lower cv_file project_report session_id s in
  Routes.db (snd r) = Routes.db s
  /\ Routes.scheduled (snd r) = Routes.scheduled s
  /\ match fst r with
     | Raise e => snd r = s /\ exists detail, e = HTTPException 400 detail
     | Ok response =>
         DocumentProcessor.validate_file_format lower (Routes.filename cv_file) = true
         /\ DocumentProcessor.validate_file_format lower (Routes.filename project_report)
            = true
         /\ (N.of_nat (length (Routes.body cv_file)) <= Routes.MAX_FILE_SIZE)%N
         /\ (N.of_nat (length (Routes.body project_report)) <= Routes.MAX_FILE_SIZE)%N
         /\ Upload.saved_cv_path response ∈ Routes.files (snd r)
         /\ Upload.saved_project_path response ∈ Routes.files (snd r)
         /\ (Routes.files s) ⊆ (Routes.files (snd r))
     end.
Proof.
  unfold Upload.upload_files.
  destruct (DocumentProcessor.validate_file_format lower (Routes.filename cv_file));
    cbn [negb]; [|cbn; eauto 6].
  destruct (DocumentProcessor.validate_file_format lower (Routes.filename project_report));
    cbn [negb]; [|cbn; eauto 6].
  destruct (N.ltb_spec Routes.MAX_FILE_SIZE (N.of_nat (length (Routes.body cv_file))));
    [cbn; eauto 6|].
  destruct (N.ltb_spec Routes.MAX_FILE_SIZE
              (N.of_nat (length (Routes.body project_report)))); [cbn; eauto 6|].
  cbn. repeat split; auto; set_solver.
Qed.

(** X16.  The two-step flow works: the paths an accepted [POST /upload]
    returns are accepted by [POST /evaluate] with a fresh id, which stores a
    queued task with these paths and schedules exactly that task. *)
Theorem upload_then_evaluate (lower : str -> str)
    (cv_file project_report : Routes.UploadFile) (session_id : str)
    (s s1 : Routes.server) (response : Upload.FileUploadResponse)
    (description : option str) (new_id : str) (now : Z) :
  Upload.upload_files lower cv_file project_report session_id s = (Ok response, s1) ->
  Routes.db s !! new_id = None ->
  exists s2,
    Routes.create_evaluation_task (Upload.saved_cv_path response)
      (Upload.saved_project_path response) description new_id now s1
    = (Ok {| Routes.response_id := new_id; Routes.response_status := QUEUED |}, s2)
    /\ Routes.db s2 !! new_id
       = Some (Routes.queued_task (Upload.saved_cv_path response)
                 (Upload.saved_project_path response)
                 (default Routes.default_job_description description) now)
    /\ Routes.scheduled s2 = Routes.scheduled s ++ [new_id].
Proof.
  intros Hu Hfresh.
  pose proof (upload_files_accepted lower cv_file project_report session_id s s1 response Hu)
    as (Hdb & Hsch & H1 & H2).
  unfold Routes.create_evaluation_task.
  rewrite (bool_decide_eq_true_2 _ H1), (bool_decide_eq_true_2 _ H2). cbn [negb].
  unfold Routes.add_and_schedule. rewrite Hdb, Hfresh.
  eexists. split; [reflexivity|]. cbn [Routes.db Routes.scheduled].
  rewrite lookup_insert_eq, Hsch. auto.
Qed.

Lemma upload_then_evaluate_witness :
  exists s2,
    Routes.create_evaluation_task (u "uploads/3f2a-77_cv_cv.pdf")
      (u "uploads/3f2a-77_project_report.txt") None task1 100
      (snd (Upload.upload_files lower_latin
              {| Routes.filename := u "cv.pdf"; Routes.body := [37; 80]%N |}
              {| Routes.filename := u "report.txt"; Routes.body := [] |}
              (u "3f2a-77") server0))
    = (Ok {| Routes.response_id := task1; Routes.response_status := QUEUED |}, s2)
    /\ Routes.scheduled s2 = [task1].
Proof.
  destruct (upload_then_evaluate lower_latin
              {| Routes.filename := u "cv.pdf"; Routes.body := [37; 80]%N |}
              {| Routes.filename := u "report.txt"; Routes.body := [] |}
              (u "3f2a-77") server0 _ _ None task1 100 eq_refl eq_refl)
    as (s2 & H1 & _ & H3).
  exists s2. split; [exact H1|exact H3].
Defined.

(** ** Reading tasks back *)

Section ReadFacts.

Import Routes.

Lemma nonempty_Some (o : option str) (m : str) :
  nonempty o = Some m <-> o = Some m /\ m <> [].
Proof.
  destruct o as [[|c x]|]; simpl; split.
  - discriminate.
  - intros [[= <-] H]. congruence.
  - intros [= <-]. split; [reflexivity|discriminate].
  - intros [[= <-] _]. reflexivity.
  - discriminate.
  - intros [H _]. discriminate.
Qed.

Lemma StronglySorted_drop {A} (R : A -> A -> Prop) (n : nat) (l : list A) :
  StronglySorted R l -> StronglySorted R (drop n l).
Proof.
  revert l. induction n as [|n IH]; intros l H; [rewrite drop_0; exact H|].
  destruct H; [constructor|]. simpl. apply IH. assumption.
Qed.

Lemma StronglySorted_take {A} (R : A -> A -> Prop) (n : nat) (l : list A) :
  StronglySorted R l -> StronglySorted R (take n l).
Proof.
  intros H. revert n. induction H as [|x l Hl IH Hx]; intros n;
    [rewrite take_nil; constructor|].
  destruct n; simpl; constructor; [apply IH|apply Forall_take, Hx].
Qed.

Lemma page_sorted {A} (R : A -> A -> Prop) (offset limit : Z) (l : list A) :
  StronglySorted R l -> StronglySorted R (page offset limit l).
Proof.
  intros H. unfold page. destruct (limit <? 0)%Z.
  - apply StronglySorted_drop, H.
  - apply StronglySorted_take, StronglySorted_drop, H.
Qed.

Lemma page_sublist {A} (offset limit : Z) (l : list A) : page offset limit l `sublist_of` l.
Proof.
  unfold page. destruct (limit <? 0)%Z.
  - apply sublist_drop.
  - etransitivity; [apply sublist_take|apply sublist_drop].
Qed.

Lemma page_fmap {A B} (f : A -> B) (offset limit : Z) (l : list A) :
  f <$> page offset limit l = page offset limit (f <$> l).
Proof.
  unfold page. destruct (limit <? 0)%Z; rewrite ?fmap_take, ?fmap_drop; reflexivity.
Qed.

Lemma length_page {A} (offset limit : Z) (l : list A) :
  (0 <= limit)%Z -> (Z.of_nat (length (page offset limit l)) <= limit)%Z.
Proof.
  intros H. unfold page. destruct (Z.ltb_spec limit 0); [lia|].
  rewrite length_take. lia.
Qed.

Lemma insert_newest_sorted (x : str * EvaluationTask) (l : list (str * EvaluationTask)) :
  StronglySorted newer l -> StronglySorted newer (insert_newest x l).
Proof.
  induction 1 as [|y l Hl IH Hy]; simpl.
  - repeat constructor.
  - destruct (Z.leb_spec (created_at (snd y)) (created_at (snd x))) as [E|E].
    + constructor; [constructor; assumption|].
      constructor; [exact E|].
      eapply Forall_impl; [exact Hy|]. unfold newer. intros z Hz. simpl in Hz. lia.
    + constructor; [exact IH|].
      rewrite insert_newest_perm. constructor; [unfold newer; lia|exact Hy].
Qed.

Lemma newest_first_sorted (l : list (str * EvaluationTask)) :
  StronglySorted newer (newest_first l).
Proof.
  induction l as [|x l IH]; simpl; [constructor|].
  apply insert_newest_sorted, IH.
Qed.

Lemma list_tasks_rows (include_results : bool) (limit offset : Z) (t : table) :
  list_tasks include_results limit offset t
  = list_entry include_results <$> page offset limit (newest_first (map_to_list t)).
Proof. reflexivity. Qed.

End ReadFacts.

Section RouteFacts.

Import Routes.

Lemma StronglySorted_map_entries (include_results : bool) (l : list (str * EvaluationTask)) :
  StronglySorted newer l ->
  StronglySorted (fun a b => (entry_created_at b <= entry_created_at a)%Z)
    (list_entry include_results <$> l).
Proof.
  induction 1 as [|x l Hl IH Hx]; simpl; constructor; [exact IH|].
  apply Forall_fmap. eapply Forall_impl; [exact Hx|]. intros y Hy. exact Hy.
Qed.

Lemma list_tasks_entry_ids (include_results : bool) (limit offset : Z) (t : table) :
  entry_id <$> list_tasks include_results limit offset t
  = page offset limit (fst <$> newest_first (map_to_list t)).
Proof.
  rewrite list_tasks_rows, <- list_fmap_compose, <- page_fmap. reflexivity.
Qed.

End RouteFacts.

(** X17.  [POST /evaluate] with two existing paths and a fresh id stores a
    task that [GET /result] reports as queued, without result and error;
    the other tasks and the storage are untouched, and exactly this task is
    scheduled. *)
Theorem create_evaluation_task_then_get (cv_path project_path : str)
    (description : option str) (new_id : str) (now : Z) (s : Routes.server) :
  cv_path ∈ Routes.files s -> project_path ∈ Routes.files s ->
  Routes.db s !! new_id = None ->
  exists s',
    Routes.create_evaluation_task cv_path project_path description new_id now s
    = (Ok {| Routes.response_id := new_id; Routes.response_status := QUEUED |}, s')
    /\ Routes.get_evaluation_result new_id (Routes.db s')
       = Ok {| Routes.trr_id := new_id; Routes.trr_status := QUEUED;
               Routes.trr_result := None; Routes.trr_error := None;
               Routes.trr_created_at := now |}
    /\ (forall other, other <> new_id -> Routes.db s' !! other = Routes.db s !! other)
    /\ Routes.files s' = Routes.files s
    /\ Routes.scheduled s' = Routes.scheduled s ++ [new_id].
Proof.
  intros H1 H2 Hf. unfold Routes.create_evaluation_task.
  rewrite (bool_decide_eq_true_2 _ H1), (bool_decide_eq_true_2 _ H2). cbn [negb].
  unfold Routes.add_and_schedule. rewrite Hf. eexists. split; [reflexivity|].
  cbn [Routes.db Routes.files Routes.scheduled].
  split; [unfold Routes.get_evaluation_result; rewrite lookup_insert_eq; reflexivity|].
  split; [intros other Ho; apply lookup_insert_ne; congruence|].
  split; reflexivity.
Qed.

Lemma create_evaluation_task_then_get_witness :
  exists s',
    Routes.create_evaluation_task (u "uploads/cv.exe") (u "uploads/report.txt") None
      task1 100 server0
    = (Ok {| Routes.response_id := task1; Routes.response_status := QUEUED |}, s')
    /\ Routes.get_evaluation_result task1 (Routes.db s')
       = Ok {| Routes.trr_id := task1; Routes.trr_status := QUEUED;
               Routes.trr_result := None; Routes.trr_error := None;
               Routes.trr_created_at := 100 |}.
Proof.
  destruct (create_evaluation_task_then_get (u "uploads/cv.exe") (u "uploads/report.txt")
              None task1 100 server0) as (s' & H1 & H2 & _).
  - vm_compute. set_solver.
  - vm_compute. set_solver.
  - reflexivity.
  - exists s'. split; [exact H1|exact H2].
Defined.

(** X18.  What [GET /result] reports.  An unknown id gives 404.  For a
    stored task the response carries its status; a result exactly when the
    task is Completed and has one; an error exactly when the task is Failed
    and its message is a non-empty string (an empty message is reported as
    no error); never both. *)
Theorem get_evaluation_result_reports (task_id : str) (t : table) :
  match t !! task_id with
  | None =>
      Routes.get_evaluation_result task_id t
      = Raise (HTTPException 404 (u "Task not found"))
  | Some task =>
      exists r,
        Routes.get_evaluation_result task_id t = Ok r
        /\ Routes.trr_status r = status task
        /\ (forall x, Routes.trr_result r = Some x
                      <-> status task = COMPLETED /\ result task = Some x)
        /\ (forall m, Routes.trr_error r = Some m
                      <-> status task = FAILED /\ error_message task = Some m /\ m <> [])
        /\ ~ (is_Some (Routes.trr_result r) /\ is_Some (Routes.trr_error r))
  end.
Proof.
  unfold Routes.get_evaluation_result.
  destruct (t !! task_id) as [task|]; [|reflexivity].
  eexists. split; [reflexivity|]. cbn.
  split; [reflexivity|].
  split; [|split].
  - intros x. destruct (status task); split; try discriminate; try tauto;
      intros [H _]; discriminate H.
  - intros m. rewrite <- nonempty_Some.
    destruct (status task); split; try discriminate; try tauto;
      intros [H _]; discriminate H.
  - destruct (status task); intros [[x Hx] [m Hm]]; discriminate.
Qed.

(** X19.  After the run of a queued task, [GET /result] on the last
    committed table answers Completed with a result and no error when the
    run returned, and Failed without result when the run raised, the error
    being the exception's message unless that is empty. *)
Theorem get_evaluation_result_after_run (lower : str -> str) (svc : service)
    (docs : VectorDB.documents)
    (reader : DocumentProcessor.file_kind -> str -> outcome str)
    (draw : option EvaluationPipeline.failure_choice) (calls : nat)
    (task_id : str) (db : table) (task : EvaluationTask) :
  db !! task_id = Some task ->
  status task = QUEUED -> result task = None -> error_message task = None ->
  let run := EvaluationPipeline.run_evaluation lower svc docs reader draw calls task_id db in
  exists final r,
    last (fst run) = Some final
    /\ Routes.get_evaluation_result task_id final = Ok r
    /\ ((snd run = Ok tt /\ Routes.trr_status r = COMPLETED
         /\ is_Some (Routes.trr_result r) /\ Routes.trr_error r = None)
        \/ (exists e, snd run = Raise e /\ Routes.trr_status r = FAILED
                      /\ Routes.trr_result r = None
                      /\ Routes.trr_error r = Routes.nonempty (Some (str_exn e)))).
Proof.
  intros Ht Hs Hr He. cbv zeta. unfold EvaluationPipeline.run_evaluation.
  destruct (EvaluationPipeline.evaluate lower svc docs reader draw calls task_id
              (alter EvaluationPipeline.set_processing task_id db)) as [res|e];
    cbn [fst snd last]; eexists; eexists; (split; [reflexivity|]);
    unfold Routes.get_evaluation_result; rewrite !lookup_alter_eq, Ht; cbn;
    (split; [reflexivity|]).
  - left. repeat split. eauto.
  - right. exists e. repeat split.
Qed.

Lemma get_evaluation_result_after_run_witness :
  exists final r,
    last (fst (EvaluationPipeline.run_evaluation lower_latin well_behaved
                 VectorDB.default_documents readable None 0 task1 table1)) = Some final
    /\ Routes.get_evaluation_result task1 final = Ok r
    /\ Routes.trr_status r = COMPLETED.
Proof.
  destruct (get_evaluation_result_after_run lower_latin well_behaved
              VectorDB.default_documents readable None 0 task1 table1 queued1
              eq_refl eq_refl eq_refl eq_refl) as (final & r & H1 & H2 & H3).
  exists final, r. split; [exact H1|]. split; [exact H2|].
  destruct H3 as [(_ & H & _)|(e & He & _)]; [exact H|].
  vm_compute in He. discriminate He.
Defined.

(** X20.  [GET /tasks] lists rows of the table, newest first, no task
    twice, and for a limit of 0 or more at most [limit] of them; without
    [include_results] no entry carries a result or an error. *)
Theorem list_tasks_page (include_results : bool) (limit offset : Z) (t : table) :
  let l := Routes.list_tasks include_results limit offset t in
  StronglySorted (fun a b => (Routes.entry_created_at b <= Routes.entry_created_at a)%Z) l
  /\ NoDup (Routes.entry_id <$> l)
  /\ Forall (fun e => exists task,
                 t !! Routes.entry_id e = Some task
                 /\ Routes.entry_status e = status task
                 /\ Routes.entry_created_at e = created_at task) l
  /\ ((0 <= limit)%Z -> (Z.of_nat (length l) <= limit)%Z)
  /\ (include_results = false ->
      Forall (fun e => Routes.entry_result e = None /\ Routes.entry_error e = None) l).
Proof.
  cbv zeta. split; [|split; [|split; [|split]]].
  - rewrite list_tasks_rows.
    apply StronglySorted_map_entries, page_sorted, newest_first_sorted.
  - rewrite list_tasks_entry_ids.
    eapply sublist_NoDup; [|apply page_sublist].
    rewrite newest_first_perm. apply NoDup_fst_map_to_list.
  - rewrite list_tasks_rows. apply Forall_fmap, Forall_forall. intros [k row] H.
    apply (sublist_subseteq _ _ (page_sublist offset limit _)) in H.
    rewrite newest_first_perm in H. apply elem_of_map_to_list in H.
    exists row. cbn. auto.
  - intros H. rewrite list_tasks_rows, length_fmap. apply length_page, H.
  - intros ->. rewrite list_tasks_rows. apply Forall_fmap, Forall_forall.
    intros row _. split; reflexivity.
Qed.

(** X21.  With offset 0 and a limit that is not below the number of tasks
    (the default 50, for up to 50 tasks), [GET /tasks] lists every task of
    the table exactly once. *)
Theorem list_tasks_complete (include_results : bool) (limit : Z) (t : table) :
  (Z.of_nat (size t) <= limit)%Z ->
  Routes.entry_id <$> Routes.list_tasks include_results limit 0 t
  ≡ₚ fst <$> map_to_list t.
Proof.
  intros H. rewrite list_tasks_entry_ids. unfold Routes.page.
  destruct (Z.ltb_spec limit 0); [lia|]. cbn [Z.to_nat]. rewrite drop_0.
  rewrite take_ge.
  - rewrite newest_first_perm. reflexivity.
  - rewrite length_fmap, newest_first_perm, length_map_to_list. lia.
Qed.

Lemma list_tasks_complete_witness :
  Routes.entry_id <$> Routes.list_tasks true 50 0 table1 ≡ₚ fst <$> map_to_list table1.
Proof.
  apply (list_tasks_complete true 50 table1). vm_compute. discriminate.
Defined.

(** X22.  Deleting is final: after [DELETE /task] for an id, whether or
    not the id existed, the same request answers 404 and changes nothing. *)
Theorem delete_task_again (remove_error remove_error' : str -> option exn)
    (task_id : str) (s : Routes.server) :
  let s1 := snd (Routes.delete_task remove_error task_id s) in
  Routes.delete_task remove_error' task_id s1
  = (Raise (HTTPException 404 (u "Task not found")), s1).
Proof.
  cbv zeta.
  destruct (Routes.db s !! task_id) as [task|] eqn:E.
  - assert (H : snd (Routes.delete_task remove_error task_id s)
                = {| Routes.db := delete task_id (Routes.db s);
                     Routes.files :=
                       Routes.remove_task_files remove_error task (Routes.files s);
                     Routes.scheduled := Routes.scheduled s |})
      by (unfold Routes.delete_task; rewrite E; reflexivity).
    rewrite H. unfold Routes.delete_task. cbn [Routes.db].
    rewrite lookup_delete_eq. reflexivity.
  - assert (H : snd (Routes.delete_task remove_error task_id s) = s)
      by (unfold Routes.delete_task; rewrite E; reflexivity).
    rewrite H. unfold Routes.delete_task. rewrite E. reflexivity.
Qed.

(** X23.  [DELETE /task] removes no file other than the two input files of
    the deleted task. *)
Theorem delete_task_keeps_other_files (remove_error : str -> option exn)
    (task_id : str) (s : Routes.server) (path : str) :
  path ∈ Routes.files s ->
  (forall task, Routes.db s !! task_id = Some task ->
                path <> cv_file_path task /\ path <> project_report_path task) ->
  path ∈ Routes.files (snd (Routes.delete_task remove_error task_id s)).
Proof.
  intros Hp Hne. unfold Routes.delete_task.
  destruct (Routes.db s !! task_id) as [task|]; cbn [snd Routes.files]; [|exact Hp].
  destruct (Hne task eq_refl) as [H1 H2].
  unfold Routes.remove_task_files, Routes.remove_if_exists.
  repeat (case_bool_decide || destruct (remove_error _)); set_solver.
Qed.

Lemma delete_task_keeps_other_files_witness :
  u "uploads/other.txt"
  ∈ Routes.files
      (snd (Routes.delete_task (fun _ => None) task1
              {| Routes.db := table1;
                 Routes.files := {[ u "uploads/s1_cv_cv.txt"; u "uploads/other.txt" ]};
                 Routes.scheduled := [] |})).
Proof.
  apply (delete_task_keeps_other_files (fun _ => None) task1
           {| Routes.db := table1;
              Routes.files := {[ u "uploads/s1_cv_cv.txt"; u "uploads/other.txt" ]};
              Routes.scheduled := [] |} (u "uploads/other.txt")).
  - set_solver.
  - intros task H. injection H as <-. split; discriminate.
Defined.

(** ** The document store *)

Section DocumentFacts.

Import VectorDB VectorDBService.

Lemma document_store_eq (doc_id : str) (d : doc_dict) (docs : documents) :
  document doc_id (store doc_id d docs) = Some d.
Proof.
  induction docs as [|[k d'] docs IH]; simpl.
  - rewrite decide_True by reflexivity. reflexivity.
  - destruct (decide (k = doc_id)) as [->|Hk]; simpl.
    + rewrite decide_True by reflexivity. reflexivity.
    + rewrite decide_False by exact Hk. exact IH.
Qed.

Lemma document_store_ne (doc_id other : str) (d : doc_dict) (docs : documents) :
  other <> doc_id -> document other (store doc_id d docs) = document other docs.
Proof.
  intros Ho. induction docs as [|[k d'] docs IH]; simpl.
  - rewrite decide_False by congruence. reflexivity.
  - destruct (decide (k = doc_id)) as [->|Hk]; simpl.
    + rewrite !decide_False by congruence. reflexivity.
    + rewrite IH. reflexivity.
Qed.

Lemma document_None_keys (doc_id : str) (docs : documents) :
  document doc_id docs = None <-> doc_id ∉ fst <$> docs.
Proof.
  induction docs as [|[k d] docs IH]; simpl.
  - split; [intros _; apply not_elem_of_nil|reflexivity].
  - rewrite not_elem_of_cons. destruct (decide (k = doc_id)) as [->|Hk].
    + split; [discriminate|]. intros [H _]. congruence.
    + rewrite IH. split; [intros H; split; [congruence|exact H]|intros [_ H]; exact H].
Qed.

Lemma store_keys (doc_id : str) (d : doc_dict) (docs : documents) :
  fst <$> store doc_id d docs
  = match document doc_id docs with
    | Some _ => fst <$> docs
    | None => (fst <$> docs) ++ [doc_id]
    end.
Proof.
  induction docs as [|[k d'] docs IH]; [reflexivity|].
  cbn [store document].
  destruct (decide (k = doc_id)) as [->|Hk]; [reflexivity|].
  rewrite !fmap_cons, IH. destruct (document doc_id docs); reflexivity.
Qed.

Lemma store_NoDup (doc_id : str) (d : doc_dict) (docs : documents) :
  NoDup (fst <$> docs) -> NoDup (fst <$> store doc_id d docs).
Proof.
  intros H. rewrite store_keys.
  destruct (document doc_id docs) eqn:E; [exact H|].
  apply NoDup_app. split; [exact H|]. split; [|apply NoDup_singleton].
  intros x Hx Hx'. apply list_elem_of_singleton in Hx' as ->.
  apply document_None_keys in E. contradiction.
Qed.

End DocumentFacts.

(** X24.  [add_document] inserts or overwrites by id: afterwards the id
    holds the new document, every other id holds what it held, an id that
    was present keeps its place in the iteration order and a new one is
    appended, and ids stay unique. *)
Theorem add_document_by_id (content doc_id doc_type category : str)
    (docs : VectorDB.documents) :
  let docs' := VectorDB.add_document content doc_id doc_type category docs in
  VectorDBService.document doc_id docs'
  = Some [(u "id", PyStr doc_id); (u "content", PyStr content);
          (u "type", PyStr doc_type); (u "category", PyStr category)]
  /\ (forall other, other <> doc_id ->
        VectorDBService.document other docs' = VectorDBService.document other docs)
  /\ fst <$> docs'
     = match VectorDBService.document doc_id docs with
       | Some _ => fst <$> docs
       | None => (fst <$> docs) ++ [doc_id]
       end
  /\ (NoDup (fst <$> docs) -> NoDup (fst <$> docs')).
Proof.
  cbv zeta. unfold VectorDB.add_document.
  split; [apply document_store_eq|].
  split; [intros other Ho; apply document_store_ne, Ho|].
  split; [apply store_keys|apply store_NoDup].
Qed.

Section RetrievalFacts.

Import VectorDB ContextStore.

Variable lower : str -> str.

Lemma add_document_upsert (content doc_id doc_type category : str)
    (ds : list ContextDocument) :
  add_document content doc_id doc_type category (store_of ds)
  = store_of (upsert (Build_ContextDocument doc_id content doc_type category) ds).
Proof.
  unfold add_document. induction ds as [|d ds IH]; simpl; [reflexivity|].
  destruct (decide (ContextStore.doc_id d = doc_id)); [reflexivity|].
  simpl. rewrite IH. reflexivity.
Qed.

Lemma upsert_elem (d : ContextDocument) (ds : list ContextDocument) : d ∈ upsert d ds.
Proof.
  induction ds as [|d' ds IH]; simpl; [left|].
  destruct (decide (ContextStore.doc_id d' = ContextStore.doc_id d)); [left|right; exact IH].
Qed.

Lemma length_upsert (d : ContextDocument) (ds : list ContextDocument) :
  (length (upsert d ds) <= S (length ds))%nat.
Proof.
  induction ds as [|d' ds IH]; simpl; [lia|].
  destruct (decide (ContextStore.doc_id d' = ContextStore.doc_id d)); simpl; lia.
Qed.

Lemma length_candidates (query : str) (type_filter : option str) (ds : list ContextDocument) :
  (length (candidates lower query type_filter ds) <= length ds)%nat.
Proof. unfold candidates. rewrite length_fmap. apply length_filter. Qed.

Lemma slice_upto_all {A} (n : Z) (l : list A) :
  (Z.of_nat (length l) <= n)%Z -> slice_upto n l = l.
Proof.
  intros H. unfold slice_upto. destruct (Z.leb_spec 0 n); [|lia].
  apply take_ge. lia.
Qed.

(** Every document the loop collects has a score between 1 and the number
    of query words, and there are no more of them than documents. *)
Lemma scan_scores (docs : documents) (words : list str) (context_type : option str) :
  forall l, scan lower docs words context_type = Ok l ->
            Forall (fun r => (1 <= score r <= length words)%nat) l
            /\ (length l <= length docs)%nat.
Proof.
  induction docs as [|[k d] docs IH]; intros l; simpl.
  - intros [= <-]. split; [constructor|reflexivity].
  - destruct (if truthy context_type
              then rbind (item d "type") (fun t => Ok (ne_str t (default [] context_type)))
              else Ok false) as [[|]|]; simpl; [| |discriminate].
    { intros H. destruct (IH l H). split; [assumption|lia]. }
    destruct (item d "content") as [c|]; simpl; [|discriminate].
    destruct (text_of c) as [text|]; simpl; [|discriminate].
    destruct (Nat.ltb_spec 0 (keyword_score words (lower text))) as [Hs|Hs].
    + destruct (item d "type") as [t|]; simpl; [|discriminate].
      destruct (item d "category") as [cat|]; simpl; [|discriminate].
      destruct (scan lower docs words context_type) as [more|]; simpl; [|discriminate].
      intros [= <-]. destruct (IH more eq_refl) as [H1 H2].
      split; [|simpl; lia]. constructor; [|exact H1]. simpl. split; [lia|].
      unfold keyword_score. apply length_filter.
    + intros H. destruct (IH l H). split; [assumption|lia].
Qed.

End RetrievalFacts.

(** X25.  A document added with [add_document] is found again: on a store
    of well-formed documents, a query with a term that occurs in the lowered
    content retrieves the added document, with its content, type and
    category, when the limit exceeds the number of documents and the filter
    is absent or the document's type. *)
Theorem added_document_is_retrieved (lower : str -> str)
    (ds : list ContextStore.ContextDocument)
    (content doc_id doc_type category query term : str)
    (type_filter : option str) (limit : Z) :
  term ∈ split (lower query) ->
  contains (lower content) term = true ->
  type_filter = None \/ type_filter = Some doc_type ->
  (Z.of_nat (length ds) < limit)%Z ->
  exists l r,
    VectorDB.retrieve_context lower
      (VectorDB.add_document content doc_id doc_type category (ContextStore.store_of ds))
      query type_filter limit = Ok l
    /\ r ∈ l
    /\ VectorDB.content r = content
    /\ VectorDB.metadata_type r = PyStr doc_type
    /\ VectorDB.metadata_category r = PyStr category
    /\ (1 <= VectorDB.score r)%nat.
Proof.
  intros Hterm Hin Hfilter Hlimit.
  set (d := ContextStore.Build_ContextDocument doc_id content doc_type category).
  assert (Hrel : (0 < ContextStore.relevance lower query d)%nat).
  { unfold ContextStore.relevance. cbn [ContextStore.doc_content d].
    destruct (filter (fun t => contains (lower content) t = true) (split (lower query)))
      as [|x xs] eqn:E; [|simpl; lia].
    assert (H : term ∈ filter (fun t => contains (lower content) t = true)
                         (split (lower query)))
      by (apply list_elem_of_filter; auto).
    rewrite E in H. inversion H. }
  assert (Hpass : ContextStore.type_passes type_filter d = true).
  { destruct Hfilter as [->| ->]; [reflexivity|]. cbn.
    destruct doc_type; [reflexivity|]. apply bool_decide_eq_true_2. reflexivity. }
  exists (VectorDB.sort_desc
            (ContextStore.candidates lower query type_filter (upsert d ds))),
         (ContextStore.as_retrieved lower query d).
  split.
  - unfold VectorDB.retrieve_context, VectorDB.retrieve_body.
    rewrite add_document_upsert, scan_store_of. cbn [rbind].
    rewrite slice_upto_all; [reflexivity|].
    rewrite sort_desc_perm.
    pose proof (length_candidates lower query type_filter (upsert d ds)).
    pose proof (length_upsert d ds). unfold d in *. lia.
  - split; [|split; [reflexivity|split; [reflexivity|split; [reflexivity|exact Hrel]]]].
    rewrite sort_desc_perm. unfold ContextStore.candidates.
    apply list_elem_of_fmap. exists d. split; [reflexivity|].
    apply list_elem_of_filter. split; [|apply upsert_elem].
    rewrite Hpass, andb_true_r. apply Nat.ltb_lt, Hrel.
Qed.

Lemma added_document_is_retrieved_witness :
  exists l r,
    VectorDB.retrieve_context lower_latin
      (VectorDB.add_document (u "Frontend Developer: React and CSS") (u "job_desc_frontend")
         (u "job_description") (u "frontend_developer")
         (ContextStore.store_of ContextStore.default_corpus))
      (u "REACT experience") (Some (u "job_description")) 10 = Ok l
    /\ r ∈ l
    /\ VectorDB.content r = u "Frontend Developer: React and CSS".
Proof.
  destruct (added_document_is_retrieved lower_latin ContextStore.default_corpus
              (u "Frontend Developer: React and CSS") (u "job_desc_frontend")
              (u "job_description") (u "frontend_developer")
              (u "REACT experience") (u "react") (Some (u "job_description")) 10)
    as (l & r & H1 & H2 & H3 & _).
  - vm_compute. left.
  - vm_compute. reflexivity.
  - right. reflexivity.
  - vm_compute. reflexivity.
  - exists l, r. auto.
Defined.

(** X26.  On every store, malformed documents included, what
    [retrieve_context] returns is ordered by descending score, holds no
    more entries than the store has documents, and each entry has a score of
    at least 1 and at most the number of query words. *)
Theorem retrieve_context_scores (lower : str -> str) (docs : VectorDB.documents)
    (query : str) (context_type : option str) (n_results : Z) :
  exists l,
    VectorDB.retrieve_context lower docs query context_type n_results = Ok l
    /\ StronglySorted ContextStore.score_ge l
    /\ (length l <= length docs)%nat
    /\ Forall (fun r => (1 <= VectorDB.score r <= length (split (lower query)))%nat) l.
Proof.
  unfold VectorDB.retrieve_context, VectorDB.retrieve_body.
  destruct (VectorDB.scan lower docs (split (lower query)) context_type) as [found|e] eqn:E;
    cbn [rbind].
  - destruct (scan_scores lower docs _ _ found E) as [Hs Hl].
    eexists. split; [reflexivity|].
    assert (Hall : Forall (fun r => (1 <= VectorDB.score r
                                     <= length (split (lower query)))%nat)
                     (VectorDB.sort_desc found))
      by (rewrite sort_desc_perm; exact Hs).
    unfold VectorDB.slice_upto.
    destruct (0 <=? n_results)%Z;
      (split; [apply StronglySorted_take, sort_desc_sorted|]);
      (split; [rewrite length_take, sort_desc_perm; lia|apply Forall_take, Hall]).
  - exists []. split; [reflexivity|]. split; [constructor|]. split; [simpl; lia|constructor].
Qed.

(** X27.  A query without words (empty or only whitespace) and a limit of
    0 both give the empty list, on every store. *)
Theorem retrieve_context_nothing (lower : str -> str) (docs : VectorDB.documents)
    (query : str) (context_type : option str) (n_results : Z) :
  split (lower query) = [] \/ n_results = 0%Z ->
  VectorDB.retrieve_context lower docs query context_type n_results = Ok [].
Proof.
  intros H. unfold VectorDB.retrieve_context, VectorDB.retrieve_body.
  destruct (VectorDB.scan lower docs (split (lower query)) context_type) as [found|e] eqn:E;
    cbn [rbind]; [|reflexivity].
  destruct H as [H| ->]; [|reflexivity].
  destruct (scan_scores lower docs _ _ found E) as [Hs _]. rewrite H in Hs.
  destruct found as [|r found].
  - cbn [VectorDB.sort_desc]. unfold VectorDB.slice_upto.
    destruct (0 <=? n_results)%Z; rewrite take_nil; reflexivity.
  - apply Forall_cons in Hs as [Hr _]. simpl in Hr. lia.
Qed.

Lemma retrieve_context_nothing_witness :
  VectorDB.retrieve_context lower_latin VectorDB.default_documents (u "  	 ")
    (Some (u "scoring_rubric")) 3 = Ok [].
Proof.
  apply (retrieve_context_nothing lower_latin VectorDB.default_documents (u "  	 ")
           (Some (u "scoring_rubric")) 3).
  left. reflexivity.
Defined.

(** X28.  Raising the limit only appends: for limits [0 <= a <= b] the
    result for [a] is a prefix of the result for [b]. *)
Theorem retrieve_context_limit_prefix (lower : str -> str) (docs : VectorDB.documents)
    (query : str) (context_type : option str) (a b : Z) :
  (0 <= a <= b)%Z ->
  exists la lb,
    VectorDB.retrieve_context lower docs query context_type a = Ok la
    /\ VectorDB.retrieve_context lower docs query context_type b = Ok lb
    /\ la `prefix_of` lb.
Proof.
  intros H. unfold VectorDB.retrieve_context, VectorDB.retrieve_body.
  destruct (VectorDB.scan lower docs (split (lower query)) context_type) as [found|e];
    cbn [rbind].
  - eexists. eexists. split; [reflexivity|]. split; [reflexivity|].
    unfold VectorDB.slice_upto.
    destruct (Z.leb_spec 0 a); [|lia]. destruct (Z.leb_spec 0 b); [|lia].
    replace (take (Z.to_nat a) (VectorDB.sort_desc found))
      with (take (Z.to_nat a) (take (Z.to_nat b) (VectorDB.sort_desc found))).
    + apply prefix_take.
    + rewrite take_take. f_equal. lia.
  - exists [], []. split; [reflexivity|]. split; reflexivity.
Qed.

Lemma retrieve_context_limit_prefix_witness :
  exists la lb,
    VectorDB.retrieve_context lower_latin VectorDB.default_documents
      (u "evaluation rubric") None 1 = Ok la
    /\ VectorDB.retrieve_context lower_latin VectorDB.default_documents
         (u "evaluation rubric") None 3 = Ok lb
    /\ la `prefix_of` lb.
Proof.
  apply (retrieve_context_limit_prefix lower_latin VectorDB.default_documents
           (u "evaluation rubric") None 1 3). lia.
Defined.

(** X29.  [initialize] populates once.  It always leaves the service
    initialized; on an initialized service it changes nothing, so calling
    it again, also after documents were added at run time, keeps them; on
    the fresh service it gives the three default documents; and on a service
    that was not initialized the three default ids hold the default
    documents while every other id keeps its document. *)
Theorem initialize_once (s : VectorDBService.state) :
  VectorDBService.initialized (VectorDBService.initialize s) = true
  /\ VectorDBService.initialize (VectorDBService.initialize s) = VectorDBService.initialize s
  /\ (forall content doc_id doc_type category,
        VectorDBService.initialize
          (VectorDBService.add content doc_id doc_type category
             (VectorDBService.initialize s))
        = VectorDBService.add content doc_id doc_type category
            (VectorDBService.initialize s))
  /\ VectorDBService.documents_of (VectorDBService.initialize VectorDBService.__init__)
     = VectorDB.default_documents
  /\ (VectorDBService.initialized s = false ->
      (forall d, In d (ContextStore.default_corpus) ->
         VectorDBService.document (ContextStore.doc_id d)
           (VectorDBService.documents_of (VectorDBService.initialize s))
         = Some (ContextStore.to_dict d))
      /\ (forall other,
            (forall d, In d ContextStore.default_corpus -> other <> ContextStore.doc_id d) ->
            VectorDBService.document other
              (VectorDBService.documents_of (VectorDBService.initialize s))
            = VectorDBService.document other (VectorDBService.documents_of s))).
Proof.
  assert (Hi : VectorDBService.initialized (VectorDBService.initialize s) = true).
  { unfold VectorDBService.initialize.
    destruct (VectorDBService.initialized s) eqn:E; [exact E|reflexivity]. }
  split; [exact Hi|].
  split; [unfold VectorDBService.initialize at 1; rewrite Hi; reflexivity|].
  split.
  { intros. unfold VectorDBService.initialize at 1. cbn [VectorDBService.add
      VectorDBService.initialized]. rewrite Hi. reflexivity. }
  split; [reflexivity|].
  intros Hn. unfold VectorDBService.initialize. rewrite Hn.
  cbn [VectorDBService.documents_of]. unfold VectorDBService._populate_initial_data.
  split.
  - intros d [<-|[<-|[<-|[]]]]; cbn [ContextStore.doc_id].
    + rewrite !document_store_ne by discriminate. apply document_store_eq.
    + rewrite document_store_ne by discriminate. apply document_store_eq.
    + apply document_store_eq.
  - intros other Ho.
    rewrite !document_store_ne; [reflexivity| | |].
    + apply (Ho (nth 0 ContextStore.default_corpus
                   (ContextStore.Build_ContextDocument [] [] [] []))). left. reflexivity.
    + apply (Ho (nth 1 ContextStore.default_corpus
                   (ContextStore.Build_ContextDocument [] [] [] []))). right. left.
      reflexivity.
    + apply (Ho (nth 2 ContextStore.default_corpus
                   (ContextStore.Build_ContextDocument [] [] [] []))). do 2 right. left.
      reflexivity.
Qed.


